(** * Spawn notification bot: the scheduler manager and the transport callback

    A shallow embedding of [scheduler_manager.py], [bot.py] and [config.py]:
    wall-clock datetimes with Python's field validation, the first start time
    computed by [_add_spawn_schedule], the registration of the two interval
    jobs per spawn, the dispatch callback and the start/stop guards.

    Python exceptions are values of [exn]; a computation that may raise
    returns a [result]. Async methods are modelled as sequential computations:
    an [await] is the point where the environment's answer comes in. *)

From Stdlib Require Import ZArith Lia List String Bool.
From stdpp Require Import base gmap strings.
From stdpp Require Import pretty.
Import ListNotations.

Local Open Scope string_scope.
Local Open Scope Z_scope.

(** ** Python exceptions *)

Module Py.

(** Exception classes that can occur in the modelled code. *)
Inductive exn_class :=
  | BaseException | Exception
  | ArithmeticError | ZeroDivisionError | OverflowError
  | ValueError | AttributeError | LookupError | KeyError | RuntimeError
  | CancelledError | KeyboardInterrupt | SystemExit
  | ConflictingIdError
  | DiscordException | HTTPException | Forbidden | NotFound.

#[global] Instance exn_class_eq_dec : EqDecision exn_class.
Proof. solve_decision. Defined.

(** Method resolution order of each class: the class and its ancestors. *)
Definition mro (c : exn_class) : list exn_class :=
  match c with
  | BaseException => [BaseException]
  | Exception => [Exception; BaseException]
  | ArithmeticError => [ArithmeticError; Exception; BaseException]
  | ZeroDivisionError => [ZeroDivisionError; ArithmeticError; Exception; BaseException]
  | OverflowError => [OverflowError; ArithmeticError; Exception; BaseException]
  | ValueError => [ValueError; Exception; BaseException]
  | AttributeError => [AttributeError; Exception; BaseException]
  | LookupError => [LookupError; Exception; BaseException]
  | KeyError => [KeyError; LookupError; Exception; BaseException]
  | RuntimeError => [RuntimeError; Exception; BaseException]
  | CancelledError => [CancelledError; BaseException]
  | KeyboardInterrupt => [KeyboardInterrupt; BaseException]
  | SystemExit => [SystemExit; BaseException]
  | ConflictingIdError => [ConflictingIdError; KeyError; LookupError; Exception; BaseException]
  | DiscordException => [DiscordException; Exception; BaseException]
  | HTTPException => [HTTPException; DiscordException; Exception; BaseException]
  | Forbidden => [Forbidden; HTTPException; DiscordException; Exception; BaseException]
  | NotFound => [NotFound; HTTPException; DiscordException; Exception; BaseException]
  end.

Definition issubclass (c d : exn_class) : bool := bool_decide (d ∈ mro c).

Record exn := mk_exn { exn_cls : exn_class; exn_msg : string }.

(** [isinstance(e, c)], the test an [except c] clause makes. *)
Definition isinstance (e : exn) (c : exn_class) : bool := issubclass (exn_cls e) c.

Inductive result (A : Type) :=
  | Ok (a : A)
  | Raise (e : exn).
Arguments Ok {A} a.
Arguments Raise {A} e.

Definition rbind {A B} (r : result A) (k : A -> result B) : result B :=
  match r with
  | Ok a => k a
  | Raise e => Raise e
  end.

(** A method body over a state [St]: it threads the state and ends normally
    or by raising. State changes made before a raise stay, as mutations of
    Python objects do. *)
Definition M (St A : Type) : Type := St -> St * result A.

Definition ret {St A} (a : A) : M St A := fun s => (s, Ok a).
Definition raise {St A} (e : exn) : M St A := fun s => (s, Raise e).
Definition bind {St A B} (m : M St A) (k : A -> M St B) : M St B :=
  fun s => match m s with
           | (s', Ok a) => k a s'
           | (s', Raise e) => (s', Raise e)
           end.
Definition lift {St A} (r : result A) : M St A := fun s => (s, r).

(** The [except] clauses of a [try], tried in order: the first whose class
    the exception is an instance of handles it; with none, it propagates. *)
Fixpoint handle {St A} (clauses : list (exn_class * (exn -> M St A))) (e : exn) : M St A :=
  match clauses with
  | [] => raise e
  | (c, h) :: rest => if isinstance e c then h e else handle rest e
  end.

Definition try_except {St A} (body : M St A) (clauses : list (exn_class * (exn -> M St A))) : M St A :=
  fun s => match body s with
           | (s', Raise e) => handle clauses e s'
           | r => r
           end.

(** [for x in l: body(x)] *)
Fixpoint for_each {St A} (l : list A) (body : A -> M St unit) : M St unit :=
  match l with
  | [] => ret tt
  | x :: l' => bind (body x) (fun _ => for_each l' body)
  end.

End Py.
Import Py.

Declare Scope py_scope.
Delimit Scope py_scope with py.
Notation "x <- m ;; k" := (bind m (fun x => k))
  (at level 100, m at next level, right associativity) : py_scope.
Notation "m ;; k" := (bind m (fun _ => k))
  (at level 100, right associativity) : py_scope.

Notation "x <-? r ; k" := (rbind r (fun x => k))
  (at level 100, r at next level, right associativity, only parsing).

(** ** Wall-clock datetimes ([datetime.datetime]) *)

Module Datetime.

(** The fields of a [datetime]. The tzinfo is left out: every datetime of the
    scheduler manager is derived from one [datetime.now(BUCHAREST_TZ)] by
    [replace] and [+ timedelta], which keep the tzinfo object, and Python
    compares and subtracts aware datetimes of the same tzinfo by their
    wall-clock fields. *)
Record datetime := mk_datetime {
  year : Z; month : Z; day : Z;
  hour : Z; minute : Z; second : Z; microsecond : Z
}.

#[global] Instance datetime_eq_dec : EqDecision datetime.
Proof. solve_decision. Defined.

Definition MINYEAR : Z := 1.
Definition MAXYEAR : Z := 9999.

Definition is_leap (y : Z) : bool :=
  (y mod 4 =? 0) && (negb (y mod 100 =? 0) || (y mod 400 =? 0)).

Definition days_in_month (y m : Z) : Z :=
  if m =? 2 then (if is_leap y then 29 else 28)
  else if (m =? 4) || (m =? 6) || (m =? 9) || (m =? 11) then 30
  else 31.

(** Days of the year before the first day of month [m]. *)
Definition days_before_month (y m : Z) : Z :=
  match m with
  | 1 => 0 | 2 => 31 | 3 => 59 | 4 => 90 | 5 => 120 | 6 => 151
  | 7 => 181 | 8 => 212 | 9 => 243 | 10 => 273 | 11 => 304 | _ => 334
  end + (if (2 <? m) && is_leap y then 1 else 0).

(** Days before January 1st of year [y]. *)
Definition days_before_year (y : Z) : Z :=
  let y' := y - 1 in y' * 365 + y' / 4 - y' / 100 + y' / 400.

(** Proleptic Gregorian ordinal, January 1st of year 1 being day 1. *)
Definition ymd2ord (y m d : Z) : Z :=
  days_before_year y + days_before_month y m + d.

Definition toordinal (d : datetime) : Z := ymd2ord (year d) (month d) (day d).

Definition check_date_fields (y m d : Z) : bool :=
  (MINYEAR <=? y) && (y <=? MAXYEAR) && (1 <=? m) && (m <=? 12)
  && (1 <=? d) && (d <=? days_in_month y m).

Definition check_time_fields (h mi s us : Z) : bool :=
  (0 <=? h) && (h <=? 23) && (0 <=? mi) && (mi <=? 59)
  && (0 <=? s) && (s <=? 59) && (0 <=? us) && (us <=? 999999).

Definition valid (d : datetime) : bool :=
  check_date_fields (year d) (month d) (day d)
  && check_time_fields (hour d) (minute d) (second d) (microsecond d).

(** The constructor: out-of-range fields raise [ValueError]. *)
Definition datetime_new (d : datetime) : result datetime :=
  if check_date_fields (year d) (month d) (day d) then
    if check_time_fields (hour d) (minute d) (second d) (microsecond d) then Ok d
    else Raise (mk_exn ValueError "time field out of range")
  else Raise (mk_exn ValueError "day is out of range for month").

Definition set_day (v : Z) (d : datetime) : datetime :=
  mk_datetime (year d) (month d) v (hour d) (minute d) (second d) (microsecond d).
Definition set_hour (v : Z) (d : datetime) : datetime :=
  mk_datetime (year d) (month d) (day d) v (minute d) (second d) (microsecond d).
Definition set_minute (v : Z) (d : datetime) : datetime :=
  mk_datetime (year d) (month d) (day d) (hour d) v (second d) (microsecond d).
Definition set_second (v : Z) (d : datetime) : datetime :=
  mk_datetime (year d) (month d) (day d) (hour d) (minute d) v (microsecond d).
Definition set_microsecond (v : Z) (d : datetime) : datetime :=
  mk_datetime (year d) (month d) (day d) (hour d) (minute d) (second d) v.

(** [d.replace(field=v, ...)]: a new datetime is constructed from the updated
    fields, so the result is validated again. (A field that does not fit a C
    int is reported by CPython as [OverflowError] before this check; that
    takes a day number above 2147483647, far beyond what an interval of hours
    that a timedelta can hold produces.) *)
Definition replace (d : datetime) (upd : datetime -> datetime) : result datetime :=
  datetime_new (upd d).

Definition US_PER_SECOND : Z := 1000000.
Definition US_PER_MINUTE : Z := 60 * US_PER_SECOND.
Definition US_PER_HOUR : Z := 3600 * US_PER_SECOND.
Definition US_PER_DAY : Z := 24 * US_PER_HOUR.

(** The time of day in microseconds. *)
Definition time_of_day (d : datetime) : Z :=
  hour d * US_PER_HOUR + minute d * US_PER_MINUTE + second d * US_PER_SECOND + microsecond d.

(** Microseconds since the start of ordinal day 0. *)
Definition to_micros (d : datetime) : Z :=
  toordinal d * US_PER_DAY + hour d * US_PER_HOUR + minute d * US_PER_MINUTE
  + second d * US_PER_SECOND + microsecond d.

(** A [timedelta] is kept as its total number of microseconds. *)
Definition timedelta := Z.

Definition timedelta_of (hours minutes : Z) : timedelta :=
  hours * US_PER_HOUR + minutes * US_PER_MINUTE.

(** [a - b] for two datetimes. *)
Definition sub (a b : datetime) : timedelta := to_micros a - to_micros b.

(** Comparison of two datetimes: lexicographic on the fields. *)
Definition fields (d : datetime) : list Z :=
  [year d; month d; day d; hour d; minute d; second d; microsecond d].

Fixpoint lex_compare (a b : list Z) : comparison :=
  match a, b with
  | x :: a', y :: b' =>
      match x ?= y with
      | Eq => lex_compare a' b'
      | c => c
      end
  | [], [] => Eq
  | [], _ :: _ => Lt
  | _ :: _, [] => Gt
  end.

Definition compare (a b : datetime) : comparison := lex_compare (fields a) (fields b).

(** [a <= b] *)
Definition leb (a b : datetime) : bool :=
  match compare a b with Gt => false | _ => true end.

(** The date fields are those of a calendar day (any year). *)
Definition date_ok (d : datetime) : Prop :=
  1 <= month d <= 12 /\ 1 <= day d <= days_in_month (year d) (month d).

(** The day after a date, and a date [n] days later; the time of day is kept. *)
Definition next_day (d : datetime) : datetime :=
  if day d <? days_in_month (year d) (month d) then set_day (day d + 1) d
  else if month d <? 12 then
    mk_datetime (year d) (month d + 1) 1 (hour d) (minute d) (second d) (microsecond d)
  else mk_datetime (year d + 1) 1 1 (hour d) (minute d) (second d) (microsecond d).

Definition add_days (n : nat) (d : datetime) : datetime := Nat.iter n next_day d.

(** [d + delta] for a non-negative [delta]: the time of day is advanced, the
    whole days carried over into the date, and a result after year 9999
    raises [OverflowError]. *)
Definition add (d : datetime) (delta : timedelta) : result datetime :=
  let t := time_of_day d + delta in
  let r := t mod US_PER_DAY in
  let d' := add_days (Z.to_nat (t / US_PER_DAY)) d in
  if year d' <=? MAXYEAR then
    Ok (mk_datetime (year d') (month d') (day d')
          (r / US_PER_HOUR) (r mod US_PER_HOUR / US_PER_MINUTE)
          (r mod US_PER_MINUTE / US_PER_SECOND) (r mod US_PER_SECOND))
  else Raise (mk_exn OverflowError "date value out of range").

End Datetime.
Import Datetime.

(** ** config.py *)

Module Config.

(** [datetime.time(hour, minute)] *)
Record time := mk_time { t_hour : Z; t_minute : Z }.

(** [START_TIME = time(12, 10)] *)
Definition START_TIME : time := mk_time 12 10.

(** An entry of [SPAWN_CONFIGS]. *)
Record spawn_config := mk_config {
  name : string;
  message : string;
  followup_message : string;
  interval_hours : Z;
  job_id : string;
  followup_job_id : string
}.

Definition SPAWN_CONFIGS : list spawn_config :=
  [ mk_config "Temintia Misterioasa V5"
      "Sefii din Temintia Misterioasa V5 apar in 5 min !!!"
      "Sefii din Temnita Misterioasa V5 au aparut !!!"
      2 "temintia_spawn" "temintia_followup";
    mk_config "Pustietate"
      "Sefii din Pustietate isi fac aparitia in 5 min !!!"
      "Sefii din Pustietate au aparut !!!"
      3 "pustietate_spawn" "pustietate_followup";
    mk_config "Canionul Nordic"
      "Sefii din Canionul Nordic isi fac aparitia in 5 min !!!"
      "Sefii din Canionul Nordic au aparut !!!"
      4 "canion_spawn" "canion_followup" ].

End Config.
Import Config.

(** ** The first start time of a schedule *)

(** [int(hours_passed // interval_hours)] where
    [hours_passed = delta.total_seconds() / 3600]. The source computes it in
    floating point; [delta] is a whole number of microseconds below one day,
    which is at least a 3.6e9-th of an hour away from the next multiple of
    the interval, far more than the rounding of the two divisions, so the
    floor is the floor of the exact quotient. A zero divisor raises. (An
    interval too large to convert to a float, which raises [OverflowError],
    is far beyond the hours a timedelta can hold.) *)
Definition hours_floordiv (delta : timedelta) (interval_hours : Z) : result Z :=
  if interval_hours =? 0 then Raise (mk_exn ZeroDivisionError "float floor division by zero")
  else Ok (delta / (US_PER_HOUR * interval_hours)).

(** Today at [START_TIME]: the value of
    [now_bucharest.replace(hour=START_TIME.hour, minute=START_TIME.minute,
    second=0, microsecond=0)]. *)
Definition today_at_start_time (now_bucharest : datetime) : datetime :=
  set_microsecond 0 (set_second 0
    (set_minute (t_minute START_TIME) (set_hour (t_hour START_TIME) now_bucharest))).

(** Lines 58-82 of [_add_spawn_schedule]: the start date handed to the interval
    trigger of the main notification, from the clock reading [now_bucharest]. *)
Definition start_datetime (now_bucharest : datetime) (interval_hours : Z) : result datetime :=
  start <-? replace now_bucharest today_at_start_time;
  if leb start now_bucharest then
    q <-? hours_floordiv (sub now_bucharest start) interval_hours;
    let intervals_passed := q + 1 in
    let h := t_hour START_TIME + intervals_passed * interval_hours in
    start <-? replace start (set_hour (h mod 24));
    if 24 <=? h then
      let days_to_add := h / 24 in
      replace start (fun d => set_hour (h mod 24) (set_day (day start + days_to_add) d))
    else Ok start
  else Ok start.

(** ** The scheduler the manager drives

    [AsyncIOScheduler], [IntervalTrigger] and the job objects belong to the
    APScheduler library, which is not part of the sources. The manager only
    constructs triggers, registers jobs with options and starts or shuts the
    scheduler down; these records hold what the manager passes in. *)

Module APScheduler.

(** [IntervalTrigger(hours=..., start_date=..., timezone=...)]. The library
    keeps the interval as a timedelta, which holds at most 999999999 days:
    the record stands for a trigger whose [trigger_hours] are within that. *)
Record IntervalTrigger := mk_trigger {
  trigger_hours : Z;
  start_date : datetime
}.

(** Modelled from the spec: the recurrence of the library's interval trigger,
    which is missing from the sources. Section 3 has a job recur on its
    interval from the first fire time ([nextFireTime] advances by
    [intervalHours] after each fire), so occurrence [k] of a trigger is [k]
    intervals after its start date. Timestamps are in microseconds. *)
Definition fire_time (t : IntervalTrigger) (k : Z) : Z :=
  to_micros (start_date t) + k * (trigger_hours t * US_PER_HOUR).

(** A job as [add_job] receives it, with the two mutable fields of the spec's
    ScheduledJob ([next_run_time], [running]). *)
Record Job := mk_job {
  job_args : string * string;      (* args=[message, name] *)
  id : string;
  job_name : string;
  trigger : IntervalTrigger;
  misfire_grace_time : Z;
  coalesce : bool;
  max_instances : Z;
  next_run_time : option Z;
  running : bool
}.

Record Scheduler := mk_scheduler {
  jobs : gmap string Job;
  timing_loops : nat
}.

Definition new_scheduler : Scheduler := mk_scheduler ∅ 0.

(** Modelled from the spec: the job store behind [add_job], which is missing
    from the sources. Section 4.3: jobs are stored keyed by id, registration
    fails with a setup error if an id collides with an existing one, and a
    job is created with the computed first fire time. *)
Definition add_job (j : Job) (sch : Scheduler) : result Scheduler :=
  match jobs sch !! id j with
  | Some _ => Raise (mk_exn ConflictingIdError ("Job identifier conflicts with an existing job: " +:+ id j))
  | None => Ok (mk_scheduler (<[id j := j]> (jobs sch)) (timing_loops sch))
  end.

(** Modelled from the spec: [scheduler.start()], missing from the sources,
    begins a timing loop (section 4.3). Whether the library itself refuses a
    second start is not assumed. *)
Definition start (sch : Scheduler) : result Scheduler :=
  Ok (mk_scheduler (jobs sch) (S (timing_loops sch))).

(** Modelled from the spec: [scheduler.shutdown(wait=...)], missing from the
    sources, halts the timing loop (section 4.3) and destroys the jobs
    (section 3: a ScheduledJob is destroyed on scheduler shutdown). Method
    calls are atomic here, so no callback is in flight when it is called and
    [wait] has nothing to wait for. *)
Definition shutdown (wait : bool) (sch : Scheduler) : result Scheduler :=
  Ok (mk_scheduler ∅ 0).

(** Modelled from the spec: [scheduler.get_jobs()], missing from the sources:
    the registered jobs (section 4.3, [status()]), in the order in which the
    store lists them. *)
Definition get_jobs (sch : Scheduler) : list Job := (map_to_list (jobs sch)).*2.

End APScheduler.
Import APScheduler.

(** ** Logging *)

Inductive level := INFO | WARNING | ERROR.

(** The messages of [scheduler_manager.py] and [bot.py], one constructor per
    format string, carrying what the string interpolates. *)
Inductive log_msg :=
  | SettingUpSchedules
  | ConfiguredSchedules (n : nat)
  | FailedSetup (e : exn)
  | Scheduled (name : string) (interval_hours : Z) (start : datetime)
  | ScheduledFollowup (name : string) (interval_hours : Z) (start : datetime)
  | FailedAddSchedule (name : string) (e : exn)
  | SendingNotification (spawn_name : string)
  | SentNotification (spawn_name : string)
  | FailedSendNotification (spawn_name : string) (e : exn)
  | SchedulerStarted
  | FailedStart (e : exn)
  | SchedulerStopped
  | ErrorStopping (e : exn)
  | NextScheduledHeader
  | NextRun (job_name : string) (next_run : Z)
  | NoNextRun (job_name : string)
  | ErrorLoggingNextRuns (e : exn)
  | TargetChannelNotAvailable
  | SpawnMessageSent (message : string)
  | NoPermission
  | HTTPError (e : exn)
  | UnexpectedSendError (e : exn).

Definition log_record : Type := level * log_msg.

(** ** scheduler_manager.py: [SpawnSchedulerManager] *)

Module Manager.

(** The manager object together with what its methods act on: the log, the
    number of clock readings taken and the messages handed to the callback. *)
Record state := mk_state {
  scheduler : Scheduler;
  is_running : bool;
  log : list log_record;
  clock_reads : nat;
  calls : list string
}.

Definition set_scheduler (sch : Scheduler) (s : state) : state :=
  mk_state sch (is_running s) (log s) (clock_reads s) (calls s).
Definition set_is_running (b : bool) (s : state) : state :=
  mk_state (scheduler s) b (log s) (clock_reads s) (calls s).

Definition logger (l : level) (m : log_msg) : M state unit :=
  fun s => (mk_state (scheduler s) (is_running s) (log s ++ [(l, m)]) (clock_reads s) (calls s), Ok tt).

Definition get_is_running : M state bool := fun s => (s, Ok (is_running s)).
Definition assign_is_running (b : bool) : M state unit := fun s => (set_is_running b s, Ok tt).

(** A method of [self.scheduler] that returns the scheduler's new state. *)
Definition on_scheduler (f : Scheduler -> result Scheduler) : M state unit :=
  fun s => match f (scheduler s) with
           | Ok sch => (set_scheduler sch s, Ok tt)
           | Raise e => (s, Raise e)
           end.

Section Methods.

(** The environment: the [n]-th reading of [datetime.now(BUCHAREST_TZ)] and
    how the [n]-th awaited call of [message_callback] ends. *)
Variable clock : nat -> datetime.
Variable message_callback : nat -> string -> result unit.

Definition datetime_now : M state datetime :=
  fun s => (mk_state (scheduler s) (is_running s) (log s) (S (clock_reads s)) (calls s),
            Ok (clock (clock_reads s))).

Definition await_message_callback (message : string) : M state unit :=
  fun s => (mk_state (scheduler s) (is_running s) (log s) (clock_reads s) (calls s ++ [message]),
            message_callback (length (calls s)) message).

Local Open Scope py_scope.

Definition _send_spawn_notification (message spawn_name : string) : M state unit :=
  try_except
    (logger INFO (SendingNotification spawn_name) ;;
     await_message_callback message ;;
     logger INFO (SentNotification spawn_name))
    [(Exception, fun e => logger ERROR (FailedSendNotification spawn_name e))].

Definition _add_spawn_schedule (config : spawn_config) : M state unit :=
  try_except
    (let job_id := job_id config in
     let followup_job_id := followup_job_id config in
     let interval_hours := interval_hours config in
     let message := message config in
     let followup_message := followup_message config in
     let name := name config in
     now_bucharest <- datetime_now ;;
     start <- lift (start_datetime now_bucharest interval_hours) ;;
     followup_start <- lift (Datetime.add start (timedelta_of 0 5)) ;;
     let trigger := mk_trigger interval_hours start in
     let followup_trigger := mk_trigger interval_hours followup_start in
     on_scheduler (add_job
       (mk_job (message, name) job_id (name +:+ " Spawn Notification")
          trigger 60 true 1 (Some (to_micros start)) false)) ;;
     on_scheduler (add_job
       (mk_job (followup_message, name +:+ " Followup") followup_job_id
          (name +:+ " Followup Notification")
          followup_trigger 60 true 1 (Some (to_micros followup_start)) false)) ;;
     logger INFO (Scheduled name interval_hours start) ;;
     logger INFO (ScheduledFollowup name interval_hours followup_start))
    [(Exception, fun e => logger ERROR (FailedAddSchedule (name config) e) ;; raise e)].

(** The source iterates over the module constant [SPAWN_CONFIGS]; the list is
    a parameter here. *)
Definition setup_schedules (configs : list spawn_config) : M state unit :=
  try_except
    (logger INFO SettingUpSchedules ;;
     for_each configs _add_spawn_schedule ;;
     logger INFO (ConfiguredSchedules (length configs)))
    [(Exception, fun e => logger ERROR (FailedSetup e) ;; raise e)].

(** [_log_next_run_times] is only called by [start], right after
    [scheduler.start()]; the next run time it reads is the one the job holds
    from its registration on, as the spec's ScheduledJob does. *)
Definition _log_next_run_times : M state unit :=
  try_except
    (fun s =>
       (logger INFO NextScheduledHeader ;;
        for_each (get_jobs (scheduler s)) (fun job =>
          match next_run_time job with
          | Some next_run => logger INFO (NextRun (job_name job) next_run)
          | None => logger WARNING (NoNextRun (job_name job))
          end)) s)
    [(Exception, fun e => logger ERROR (ErrorLoggingNextRuns e))].

Definition start : M state unit :=
  try_except
    (r <- get_is_running ;;
     if negb r then
       on_scheduler APScheduler.start ;;
       assign_is_running true ;;
       logger INFO SchedulerStarted ;;
       _log_next_run_times
     else ret tt)
    [(Exception, fun e => logger ERROR (FailedStart e) ;; raise e)].

Definition stop : M state unit :=
  try_except
    (r <- get_is_running ;;
     if r then
       on_scheduler (shutdown true) ;;
       assign_is_running false ;;
       logger INFO SchedulerStopped
     else ret tt)
    [(Exception, fun e => logger ERROR (ErrorStopping e))].

Definition put_job (j : Job) : M state unit :=
  on_scheduler (fun sch => Ok (mk_scheduler (<[id j := j]> (jobs sch)) (timing_loops sch))).

Definition set_running (b : bool) (j : Job) : Job :=
  mk_job (job_args j) (id j) (job_name j) (trigger j) (misfire_grace_time j)
    (coalesce j) (max_instances j) (next_run_time j) b.

Definition advance (j : Job) : Job :=
  mk_job (job_args j) (id j) (job_name j) (trigger j) (misfire_grace_time j)
    (coalesce j) (max_instances j)
    ((fun t => t + trigger_hours (trigger j) * US_PER_HOUR) <$> next_run_time j)
    (running j).

(** Modelled from the spec: one fire of a due job by the registry, which is
    missing from the sources. Firing protocol, step 3 of section 4.3: set
    [running], invoke the dispatcher with the job's payload, and on completion
    clear [running] and advance the next fire time by the interval. *)
Definition fire (j : Job) : M state unit :=
  put_job (set_running true j) ;;
  _send_spawn_notification (fst (job_args j)) (snd (job_args j)) ;;
  put_job (advance (set_running false j)).



End Methods.

(** [SpawnSchedulerManager(message_callback)] *)
Definition init : state := mk_state new_scheduler false [] 0 [].

End Manager.

(** ** bot.py: the transport side of the callback *)

Module Bot.

Record channel := mk_channel { channel_name : string; channel_id : Z }.

(** [discord.Embed(title=..., description=..., color=...)] with its footer. *)
Record embed := mk_embed {
  title : string;
  description : string;
  color : Z;
  footer : option string
}.

Definition set_footer (text : string) (e : embed) : embed :=
  mk_embed (title e) (description e) (color e) (Some text).

(** The bot's [target_channel], the log, the embeds delivered to a channel
    and the number of [channel.send] calls awaited so far. *)
Record state := mk_state {
  target_channel : option channel;
  log : list log_record;
  sent : list (channel * embed);
  send_calls : nat
}.

Definition logger (l : level) (m : log_msg) : M state unit :=
  fun s => (mk_state (target_channel s) (log s ++ [(l, m)]) (sent s) (send_calls s), Ok tt).

Definition get_target_channel : M state (option channel) :=
  fun s => (s, Ok (target_channel s)).

Section Methods.

(** The environment: how the [n]-th awaited [channel.send] ends. *)
Variable channel_send : nat -> channel -> embed -> result unit.

(** [await channel.send(embed=embed)]: the embed is delivered when the call
    returns normally. *)
Definition await_send (c : channel) (e : embed) : M state unit :=
  fun s =>
    match channel_send (send_calls s) c e with
    | Ok _ => (mk_state (target_channel s) (log s) (sent s ++ [(c, e)]) (S (send_calls s)), Ok tt)
    | Raise x => (mk_state (target_channel s) (log s) (sent s) (S (send_calls s)), Raise x)
    end.

Local Open Scope py_scope.

Definition send_spawn_message (message : string) : M state unit :=
  try_except
    (tc <- get_target_channel ;;
     match tc with
     | None => logger ERROR TargetChannelNotAvailable
     | Some target_channel =>
         let embed := mk_embed "⚔️ Boss Spawn Alert" message 16739125 None in
         let embed := set_footer "Yohara Spawn Notification System" embed in
         await_send target_channel embed ;;
         logger INFO (SpawnMessageSent message)
     end)
    [(Forbidden, fun _ => logger ERROR NoPermission);
     (HTTPException, fun e => logger ERROR (HTTPError e));
     (Exception, fun e => logger ERROR (UnexpectedSendError e))].

End Methods.

End Bot.

(** ** scheduler_manager.py: [get_status] *)

Module Status.

(** An entry of the status dict's ["jobs"] list. *)
Record job_info := mk_job_info {
  info_id : string;
  info_name : string;
  info_next_run : option string
}.

(** What [get_status] returns: the status dict, or [{"error": str(e)}]. *)
Inductive status :=
  | StatusDict (running : bool) (job_count : nat) (status_jobs : list job_info)
  | ErrorDict (error : string).

(** The record [get_status] writes to the module's logger when it fails. *)
Inductive status_msg :=
  | ErrorGettingStatus (e : exn).

Section GetStatus.

(** [datetime.isoformat()] of a next run time. *)
Variable isoformat : Z -> string.

(** The environment: how reading [job.next_run_time] from a job of the
    scheduler ends. The job objects belong to the library, and [get_status]
    can be called at any time, also on a manager that was never started:
    that every job carries the attribute by then is not assumed, and reading
    an attribute that is not set raises [AttributeError]. *)
Variable getattr_next_run_time : Scheduler -> Job -> result (option Z).

Local Open Scope py_scope.

(** The loop of [get_status]: one entry is appended to [status["jobs"]] per
    job, until a read raises. *)
Fixpoint append_job_infos (sch : Scheduler) (jobs : list Job) (status_jobs : list job_info)
  : result (list job_info) :=
  match jobs with
  | [] => Ok status_jobs
  | job :: rest =>
      match getattr_next_run_time sch job with
      | Ok next_run =>
          append_job_infos sch rest
            (status_jobs ++ [mk_job_info (id job) (job_name job) (isoformat <$> next_run)])
      | Raise e => Raise e
      end
  end.

(** [get_status] only reads the manager [self]; the state it threads is the
    list of records it writes to the logger. *)
Definition get_status (self : Manager.state) : M (list (level * status_msg)) status :=
  try_except
    (let jobs := get_jobs (Manager.scheduler self) in
     status_jobs <- lift (append_job_infos (Manager.scheduler self) jobs []) ;;
     ret (StatusDict (Manager.is_running self) (length jobs) status_jobs))
    [(Exception, fun e =>
        (fun lg => ((lg ++ [(ERROR, ErrorGettingStatus e)])%list, Ok tt)) ;;
        ret (ErrorDict (exn_msg e)))].

End GetStatus.

End Status.

(** ** bot.py: the other methods of [DiscordBot] *)

Module Client.

Import Bot.

(** [CHANNEL_NAME] of config.py. *)
Definition CHANNEL_NAME : string := "〔🐉〕yohara-spawn".

Record guild := mk_guild {
  guild_name : string;
  guild_id : Z;
  text_channels : list channel
}.

(** An embed with fields, as [on_ready] and [status_command] build them. *)
Record embed_field := mk_field { field_name : string; field_value : string; inline : bool }.

Record rich_embed := mk_rich_embed {
  e_title : string;
  e_description : option string;
  e_color : Z;
  e_fields : list embed_field
}.

Definition add_field (name value : string) (inline : bool) (e : rich_embed) : rich_embed :=
  mk_rich_embed (e_title e) (e_description e) (e_color e)
    (e_fields e ++ [mk_field name value inline]).

(** What is handed to a [send]: a text or an embed. *)
Inductive payload :=
  | Text (content : string)
  | Embed (e : rich_embed).

(** The records these methods write to the logger of bot.py. *)
Inductive bot_msg :=
  | SettingUpBot
  | BotSetupCompleted
  | LoggedIn (user : string) (user_id : Z)
  | TargetChannelFound (name : string) (channel_id : Z)
  | StartupMessageSent
  | FailedStartupMessage (e : exn)
  | CouldNotFindTargetChannel (name : string)
  | ChannelNotFound (name : string)
  | ErrorFindingTargetChannel (e : exn)
  | JoinedGuild (name : string) (guild_id : Z)
  | ShuttingDown
  | ShutdownComplete
  | ErrorInStatusCommand (e : exn).

(** The bot object: its scheduler manager and target channel, the records
    written to the two loggers, the payloads delivered, and the numbers of
    sends and of connection closes awaited so far. *)
Record state := mk_state {
  spawn_scheduler : option Manager.state;
  target_channel : option channel;
  log : list (level * bot_msg);
  scheduler_log : list (level * Status.status_msg);
  sent : list (channel * payload);
  send_calls : nat;
  close_calls : nat
}.

(** [DiscordBot()] *)
Definition init : state := mk_state None None [] [] [] 0 0.

Definition logger (l : level) (m : bot_msg) : M state unit :=
  fun s => (mk_state (spawn_scheduler s) (target_channel s) (log s ++ [(l, m)])
              (scheduler_log s) (sent s) (send_calls s) (close_calls s), Ok tt).

Definition get_target_channel : M state (option channel) :=
  fun s => (s, Ok (target_channel s)).

Definition assign_target_channel (c : channel) : M state unit :=
  fun s => (mk_state (spawn_scheduler s) (Some c) (log s)
              (scheduler_log s) (sent s) (send_calls s) (close_calls s), Ok tt).

Definition get_spawn_scheduler : M state (option Manager.state) :=
  fun s => (s, Ok (spawn_scheduler s)).

Definition assign_spawn_scheduler (ms : Manager.state) : M state unit :=
  fun s => (mk_state (Some ms) (target_channel s) (log s)
              (scheduler_log s) (sent s) (send_calls s) (close_calls s), Ok tt).

(** A method call on the manager object [ms] that [self.spawn_scheduler]
    refers to: the object is mutated in place, and its new state is returned
    for the next call on it. *)
Definition call_scheduler {A} (ms : Manager.state) (m : M Manager.state A)
  : M state (Manager.state * A) :=
  fun s =>
    let '(ms', r) := m ms in
    (mk_state (Some ms') (target_channel s) (log s)
       (scheduler_log s) (sent s) (send_calls s) (close_calls s),
     match r with
     | Ok a => Ok (ms', a)
     | Raise e => Raise e
     end).

(** The first channel of the list named [CHANNEL_NAME]: the inner loop of
    [find_target_channel]. *)
Fixpoint find_in_channels (channels : list channel) : option channel :=
  match channels with
  | [] => None
  | c :: rest =>
      if String.eqb (channel_name c) CHANNEL_NAME then Some c
      else find_in_channels rest
  end.

(** The outer loop of [find_target_channel], which returns at the first hit. *)
Fixpoint find_in_guilds (guilds : list guild) : option channel :=
  match guilds with
  | [] => None
  | g :: rest =>
      match find_in_channels (text_channels g) with
      | Some c => Some c
      | None => find_in_guilds rest
      end
  end.

(** The newline of the field values. *)
Definition nl : string := String (Ascii.ascii_of_nat 10) "".

(** The startup embed of [on_ready]. *)
Definition startup_embed : rich_embed :=
  add_field "Start Time" "12:10 PM Bucharest Time" true
    (add_field "Scheduled Notifications"
       ("• Temintia Misterioasa V5 (every 2h)" +:+ nl +:+ "• Pustietate (every 3h)"
          +:+ nl +:+ "• Canionul Nordic (every 4h)")
       false
       (mk_rich_embed "🐉 Yohara Spawn Bot Online"
          (Some "Bot is now active and monitoring spawn schedules!") 65280 [])).

(** The embed of [status_command] for a status dict: [status.get(key, default)]
    finds no key but ["error"] in the dict of a failed [get_status]. *)
Definition status_embed (st : Status.status) : rich_embed :=
  let running := match st with Status.StatusDict r _ _ => r | Status.ErrorDict _ => false end in
  let job_count := match st with Status.StatusDict _ n _ => n | Status.ErrorDict _ => 0%nat end in
  let jobs := match st with Status.StatusDict _ _ js => js | Status.ErrorDict _ => [] end in
  let embed := mk_rich_embed "🔍 Spawn Scheduler Status" None 39423 [] in
  let embed := add_field "Status" (if running then "🟢 Running" else "🔴 Stopped") true embed in
  let embed := add_field "Active Jobs" (pretty job_count) true embed in
  match jobs with
  | [] => embed
  | _ :: _ =>
      add_field "Scheduled Jobs"
        (String.concat nl (map (fun job => "• " +:+ Status.info_name job) jobs)) false embed
  end.

Section Methods.

(** The environment: the clock of the scheduler manager, how the [n]-th
    awaited [send] ends, how the [n]-th awaited [super().close()] ends, the
    rendering of a next run time, and how reading a job's next run time
    ends. *)
Variable clock : nat -> datetime.
Variable channel_send : nat -> channel -> payload -> result unit.
Variable super_close : nat -> result unit.
Variable isoformat : Z -> string.
Variable getattr_next_run_time : Scheduler -> Job -> result (option Z).

(** [await channel.send(...)], also [await ctx.send(...)] for the channel of
    the context. *)
Definition await_send (c : channel) (p : payload) : M state unit :=
  fun s =>
    match channel_send (send_calls s) c p with
    | Ok _ => (mk_state (spawn_scheduler s) (target_channel s) (log s) (scheduler_log s)
                 (sent s ++ [(c, p)]) (S (send_calls s)) (close_calls s), Ok tt)
    | Raise x => (mk_state (spawn_scheduler s) (target_channel s) (log s) (scheduler_log s)
                    (sent s) (S (send_calls s)) (close_calls s), Raise x)
    end.

Definition await_super_close : M state unit :=
  fun s => (mk_state (spawn_scheduler s) (target_channel s) (log s) (scheduler_log s)
              (sent s) (send_calls s) (S (close_calls s)),
            super_close (close_calls s)).

Local Open Scope py_scope.

(** [self.guilds] is read from the client's cache; it is an argument here. *)
Definition find_target_channel (guilds : list guild) : M state unit :=
  try_except
    (match find_in_guilds guilds with
     | Some channel => assign_target_channel channel
     | None => logger WARNING (ChannelNotFound CHANNEL_NAME)
     end)
    [(Exception, fun e => logger ERROR (ErrorFindingTargetChannel e))].

(** [self.user] and [self.guilds] are arguments. *)
Definition on_ready (user : string) (user_id : Z) (guilds : list guild) : M state unit :=
  logger INFO (LoggedIn user user_id) ;;
  find_target_channel guilds ;;
  tc <- get_target_channel ;;
  match tc with
  | Some target_channel =>
      logger INFO (TargetChannelFound (channel_name target_channel) (channel_id target_channel)) ;;
      try_except
        (await_send target_channel (Embed startup_embed) ;;
         logger INFO StartupMessageSent)
        [(Exception, fun e => logger ERROR (FailedStartupMessage e))]
  | None => logger ERROR (CouldNotFindTargetChannel CHANNEL_NAME)
  end.

Definition on_guild_join (g : guild) (guilds : list guild) : M state unit :=
  logger INFO (JoinedGuild (guild_name g) (guild_id g)) ;;
  tc <- get_target_channel ;;
  match tc with
  | None => find_target_channel guilds
  | Some _ => ret tt
  end.

(** The source iterates over the module constant [SPAWN_CONFIGS] in
    [setup_schedules]; the list is a parameter here as it is there. *)
Definition setup_hook (configs : list spawn_config) : M state unit :=
  logger INFO SettingUpBot ;;
  assign_spawn_scheduler Manager.init ;;
  r <- call_scheduler Manager.init (Manager.setup_schedules clock configs) ;;
  call_scheduler (fst r) Manager.start ;;
  logger INFO BotSetupCompleted.

Definition close : M state unit :=
  logger INFO ShuttingDown ;;
  sch <- get_spawn_scheduler ;;
  match sch with
  | Some ms => call_scheduler ms Manager.stop ;; ret tt
  | None => ret tt
  end ;;
  await_super_close ;;
  logger INFO ShutdownComplete.

(** [self.spawn_scheduler.get_status()]: the manager is read and the records
    of the call go to the scheduler module's logger. *)
Definition call_get_status (ms : Manager.state) : M state Status.status :=
  fun s =>
    let '(lg, r) := Status.get_status isoformat getattr_next_run_time ms (scheduler_log s) in
    (mk_state (spawn_scheduler s) (target_channel s) (log s) lg
       (sent s) (send_calls s) (close_calls s), r).

(** [ctx] is the channel of the invocation context. *)
Definition status_command (ctx : channel) : M state unit :=
  try_except
    (sch <- get_spawn_scheduler ;;
     match sch with
     | None => await_send ctx (Text "Scheduler not initialized.")
     | Some ms =>
         status <- call_get_status ms ;;
         await_send ctx (Embed (status_embed status))
     end)
    [(Exception, fun e =>
        logger ERROR (ErrorInStatusCommand e) ;;
        await_send ctx (Text ("Error getting status: " +:+ exn_msg e)))].

End Methods.

End Client.

(** ** main.py *)

Module Main.

Inductive main_msg :=
  | TokenNotFound
  | PleaseSetToken
  | StartingBot
  | ShutdownRequested
  | FatalError (e : exn).

(** The records of the module's logger and the tokens the bot was started
    with. *)
Record state := mk_state {
  log : list (level * main_msg);
  started : list string
}.

Definition logger (l : level) (m : main_msg) : M state unit :=
  fun s => (mk_state (log s ++ [(l, m)]) (started s), Ok tt).

(** [sys.exit(code)] raises [SystemExit(code)]. *)
Definition sys_exit {A} (code : string) : M state A := raise (mk_exn SystemExit code).

Section Run.

(** The environment: how [bot = DiscordBot(); await bot.start(token)] ends. *)
Variable bot_start : string -> result unit.

Definition await_bot_start (token : string) : M state unit :=
  fun s => (mk_state (log s) (started s ++ [token]), bot_start token).

Local Open Scope py_scope.

(** [main()], with the value of [os.getenv('DISCORD_TOKEN')] as argument. *)
Definition main (discord_token : option string) : M state unit :=
  try_except
    (match discord_token with
     | Some (String c t) =>
         logger INFO StartingBot ;;
         await_bot_start (String c t)
     | _ =>
         logger ERROR TokenNotFound ;;
         logger ERROR PleaseSetToken ;;
         sys_exit "1"
     end)
    [(KeyboardInterrupt, fun _ => logger INFO ShutdownRequested);
     (Exception, fun e => logger ERROR (FatalError e) ;; sys_exit "1")].

End Run.

End Main.

(** ** Vocabulary of the statements *)

(** The two jobs [_add_spawn_schedule] builds from a config and a start time. *)
Definition main_job (c : spawn_config) (start : datetime) : Job :=
  mk_job (message c, name c) (job_id c) (name c +:+ " Spawn Notification")
    (mk_trigger (interval_hours c) start) 60 true 1 (Some (to_micros start)) false.

Definition followup_job (c : spawn_config) (followup_start : datetime) : Job :=
  mk_job (followup_message c, name c +:+ " Followup") (followup_job_id c)
    (name c +:+ " Followup Notification")
    (mk_trigger (interval_hours c) followup_start) 60 true 1
    (Some (to_micros followup_start)) false.

Definition config_ids (c : spawn_config) : list string := [job_id c; followup_job_id c].

Definition all_ids (configs : list spawn_config) : list string := flat_map config_ids configs.

(** Some id of the configs is already stored, or an id occurs twice. *)
Definition id_collision (s : Manager.state) (configs : list spawn_config) : Prop :=
  (exists i, i ∈ all_ids configs /\ is_Some (jobs (Manager.scheduler s) !! i))
  \/ ~ NoDup (all_ids configs).

(** A clock that always reads 15 June 2025, 09:00. *)
Definition morning_clock : nat -> datetime := fun _ => mk_datetime 2025 6 15 9 0 0 0.

(** A config with a zero interval and ids of its own. *)
Definition zero_interval_config : spawn_config :=
  mk_config "Zero" "warning" "followup" 0 "zero_spawn" "zero_followup".

(** A callback whose call fails for lack of permission. *)
Definition forbidden_callback : nat -> string -> result unit :=
  fun _ _ => Raise (mk_exn Forbidden "403 Forbidden (error code: 50013): Missing Permissions").

(** The embed [send_spawn_message] builds for a message. *)
Definition spawn_embed (message : string) : Bot.embed :=
  Bot.mk_embed "⚔️ Boss Spawn Alert" message 16739125 (Some "Yohara Spawn Notification System").

(** A channel whose send is refused. *)
Definition refusing_send : nat -> Bot.channel -> Bot.embed -> result unit :=
  fun _ _ _ => Raise (mk_exn Forbidden "403 Forbidden (error code: 50013): Missing Permissions").

(** The hour count of line 73 for a clock reading at or after today's
    [START_TIME]: [START_TIME.hour + intervals_passed * interval_hours]. *)
Definition next_grid_hour (now : datetime) (ih : Z) : Z :=
  t_hour START_TIME
  + ((time_of_day now - time_of_day (today_at_start_time now)) / (US_PER_HOUR * ih) + 1) * ih.

(** The largest interval in hours that fits a [timedelta], which holds at
    most 999999999 days; [IntervalTrigger(hours=...)] keeps its interval in
    one, and below this bound no day number of lines 58-82 leaves the range
    of a C int. *)
Definition MAX_INTERVAL_HOURS : Z := 23999999999.

(** The record [_log_next_run_times] writes for a job. *)
Definition next_run_record (job : Job) : log_record :=
  match next_run_time job with
  | Some next_run => (INFO, NextRun (job_name job) next_run)
  | None => (WARNING, NoNextRun (job_name job))
  end.

(** The events and calls the bot object receives, and the state it is in
    after a sequence of them; a method that raises leaves its changes
    behind and the next event is handled. *)
Inductive bot_event :=
  | EvSetupHook (configs : list spawn_config)
  | EvReady (user : string) (user_id : Z) (guilds : list Client.guild)
  | EvGuildJoin (g : Client.guild) (guilds : list Client.guild)
  | EvFindTargetChannel (guilds : list Client.guild)
  | EvStatusCommand (ctx : Bot.channel)
  | EvClose.

Section BotEvents.

Variable clock : nat -> datetime.
Variable channel_send : nat -> Bot.channel -> Client.payload -> result unit.
Variable super_close : nat -> result unit.
Variable isoformat : Z -> string.
Variable getattr_next_run_time : Scheduler -> Job -> result (option Z).

Definition run_event (ev : bot_event) : M Client.state unit :=
  match ev with
  | EvSetupHook configs => Client.setup_hook clock configs
  | EvReady user user_id guilds => Client.on_ready channel_send user user_id guilds
  | EvGuildJoin g guilds => Client.on_guild_join g guilds
  | EvFindTargetChannel guilds => Client.find_target_channel guilds
  | EvStatusCommand ctx =>
      Client.status_command channel_send isoformat getattr_next_run_time ctx
  | EvClose => Client.close super_close
  end.

Fixpoint run_events (evs : list bot_event) (s : Client.state) : Client.state :=
  match evs with
  | [] => s
  | ev :: rest => run_events rest (fst (run_event ev s))
  end.

End BotEvents.

(** What holds of the bot object after any sequence of events: a target
    channel is named [CHANNEL_NAME], the manager's scheduler has one timing
    loop when the manager is running and none when it is not, and no more
    payloads were delivered than sends awaited. *)
Definition bot_inv (s : Client.state) : Prop :=
  (forall c, Client.target_channel s = Some c -> Bot.channel_name c = Client.CHANNEL_NAME)
  /\ (forall ms, Client.spawn_scheduler s = Some ms ->
        timing_loops (Manager.scheduler ms)
        = if Manager.is_running ms then 1%nat else 0%nat)
  /\ (length (Client.sent s) <= Client.send_calls s)%nat.

(** Reading [job.next_run_time] when every job carries the attribute, and
    when none does. *)
Definition stored_next_run_time : Scheduler -> Job -> result (option Z) :=
  fun _ job => Ok (next_run_time job).

Definition unset_next_run_time : Scheduler -> Job -> result (option Z) :=
  fun _ _ => Raise (mk_exn AttributeError "next_run_time").

(** The embed [status_command] sends for the dict of a failed [get_status]. *)
Definition failed_status_embed : Client.rich_embed :=
  Client.mk_rich_embed "🔍 Spawn Scheduler Status" None 39423
    [Client.mk_field "Status" "🔴 Stopped" true;
     Client.mk_field "Active Jobs" "0" true].

(** A channel whose sends all return, and a connection that closes. *)
Definition accepting_send : nat -> Bot.channel -> Client.payload -> result unit :=
  fun _ _ _ => Ok tt.

Definition closing : nat -> result unit := fun _ => Ok tt.

(** The scheduler of a manager has one timing loop when the manager is
    running and none when it is not. *)
Definition sched_ok (ms : Manager.state) : Prop :=
  timing_loops (Manager.scheduler ms) = if Manager.is_running ms then 1%nat else 0%nat.

(** A method keeps [bot_inv], and its result satisfies [Q] when it returns. *)
Definition keeps_inv {A} (m : M Client.state A) (Q : A -> Prop) : Prop :=
  forall s, bot_inv s -> bot_inv (fst (m s)) /\ forall a, snd (m s) = Ok a -> Q a.

(** * Properties *)

(** ** Datetime arithmetic *)

Section DatetimeFacts.

Lemma valid_bounds d :
  valid d = true ->
  (1 <= year d <= 9999) /\ (1 <= month d <= 12)
  /\ (1 <= day d <= days_in_month (year d) (month d))
  /\ (0 <= hour d <= 23) /\ (0 <= minute d <= 59)
  /\ (0 <= second d <= 59) /\ (0 <= microsecond d <= 999999).
Proof.
  unfold valid, check_date_fields, check_time_fields, MINYEAR, MAXYEAR.
  rewrite !andb_true_iff, !Z.leb_le. lia.
Qed.

Lemma valid_intro d :
  (1 <= year d <= 9999) -> (1 <= month d <= 12) ->
  (1 <= day d <= days_in_month (year d) (month d)) ->
  (0 <= hour d <= 23) -> (0 <= minute d <= 59) ->
  (0 <= second d <= 59) -> (0 <= microsecond d <= 999999) ->
  valid d = true.
Proof.
  intros. unfold valid, check_date_fields, check_time_fields, MINYEAR, MAXYEAR.
  rewrite !andb_true_iff, !Z.leb_le. lia.
Qed.

Lemma datetime_new_valid d : valid d = true -> datetime_new d = Ok d.
Proof.
  unfold valid, datetime_new. intros H.
  apply andb_true_iff in H as [-> ->]. reflexivity.
Qed.

Lemma datetime_new_Ok d d' : datetime_new d = Ok d' -> d' = d /\ valid d = true.
Proof.
  unfold datetime_new, valid.
  destruct (check_date_fields _ _ _), (check_time_fields _ _ _ _); intros H;
    inversion H; auto.
Qed.

Lemma days_in_month_bounds y m : 28 <= days_in_month y m <= 31.
Proof.
  unfold days_in_month.
  repeat match goal with |- context [if ?b then _ else _] => destruct b end; lia.
Qed.

Lemma to_micros_split d : to_micros d = toordinal d * US_PER_DAY + time_of_day d.
Proof. unfold to_micros, time_of_day. lia. Qed.

Lemma time_of_day_bounds d :
  valid d = true -> 0 <= time_of_day d < US_PER_DAY.
Proof.
  intros H. apply valid_bounds in H.
  unfold time_of_day, US_PER_DAY, US_PER_HOUR, US_PER_MINUTE, US_PER_SECOND. lia.
Qed.

(** On one calendar day the lexicographic comparison is the comparison of
    the times of day. *)
Lemma leb_same_day a b :
  valid a = true -> valid b = true ->
  year a = year b -> month a = month b -> day a = day b ->
  leb a b = (time_of_day a <=? time_of_day b).
Proof.
  intros Ha Hb Hy Hm Hd.
  apply valid_bounds in Ha, Hb.
  unfold leb, compare, fields, lex_compare.
  rewrite Hy, Hm, Hd, !Z.compare_refl.
  unfold time_of_day, US_PER_HOUR, US_PER_MINUTE, US_PER_SECOND.
  destruct (Z.compare_spec (hour a) (hour b));
    [ destruct (Z.compare_spec (minute a) (minute b));
      [ destruct (Z.compare_spec (second a) (second b));
        [ destruct (Z.compare_spec (microsecond a) (microsecond b)) | | ] | | ] | | ];
    symmetry; first [ apply Z.leb_le; lia | apply Z.leb_gt; lia ].
Qed.

End DatetimeFacts.

(** ** The first start time *)

Section StartDatetime.

Lemma today_at_start_time_valid now :
  valid now = true -> valid (today_at_start_time now) = true.
Proof.
  intros H. apply valid_bounds in H. apply valid_intro; simpl; lia.
Qed.

(** Changing day and hour inside a month moves the timestamp linearly. *)
Lemma to_micros_set_hour_day d h' d' :
  to_micros (set_hour h' (set_day d' d))
  = to_micros d + (d' - day d) * US_PER_DAY + (h' - hour d) * US_PER_HOUR.
Proof.
  unfold to_micros, toordinal, ymd2ord, set_hour, set_day. simpl. lia.
Qed.

Lemma to_micros_set_hour d h' :
  to_micros (set_hour h' d) = to_micros d + (h' - hour d) * US_PER_HOUR.
Proof.
  unfold to_micros, toordinal, ymd2ord, set_hour. simpl. lia.
Qed.

Lemma sub_same_day a b :
  year a = year b -> month a = month b -> day a = day b ->
  sub a b = time_of_day a - time_of_day b.
Proof.
  intros Hy Hm Hd. unfold sub. rewrite !to_micros_split.
  unfold toordinal. rewrite Hy, Hm, Hd. lia.
Qed.

(** The computation of lines 58-82 spelled out on a valid clock reading. *)
Lemma start_datetime_unfold now ih :
  valid now = true -> ih <> 0 ->
  let cand := today_at_start_time now in
  start_datetime now ih =
    if time_of_day cand <=? time_of_day now then
      let h := t_hour START_TIME
               + ((time_of_day now - time_of_day cand) / (US_PER_HOUR * ih) + 1) * ih in
      if 24 <=? h then
        datetime_new (set_hour (h mod 24) (set_day (day now + h / 24) cand))
      else Ok (set_hour (h mod 24) cand)
    else Ok cand.
Proof.
  intros Hv Hih cand. unfold start_datetime, replace.
  pose proof (today_at_start_time_valid now Hv) as Hc. fold cand in Hc.
  fold cand. rewrite (datetime_new_valid cand Hc). cbn [rbind].
  rewrite (leb_same_day cand now Hc Hv) by reflexivity.
  destruct (time_of_day cand <=? time_of_day now); [| reflexivity].
  unfold hours_floordiv. destruct (Z.eqb_spec ih 0) as [|_]; [contradiction|].
  cbn [rbind]. rewrite (sub_same_day now cand) by reflexivity.
  set (h := t_hour START_TIME + _).
  assert (Hm : 0 <= h mod 24 < 24) by (apply Z.mod_pos_bound; lia).
  assert (Hv' : valid (set_hour (h mod 24) cand) = true).
  { apply valid_bounds in Hc. apply valid_intro; simpl in *; lia. }
  rewrite (datetime_new_valid _ Hv'). cbn [rbind].
  destruct (24 <=? h); reflexivity.
Qed.

(** Whenever lines 58-82 return a start time on an interval of at least one
    hour, it is a valid datetime strictly after the clock reading, a whole
    number [k] of intervals after today's [START_TIME], and no earlier grid
    point is after the clock reading. *)
Lemma start_datetime_sound now ih t :
  valid now = true -> 1 <= ih ->
  start_datetime now ih = Ok t ->
  valid t = true /\ to_micros now < to_micros t /\
  exists k, 0 <= k
    /\ to_micros t = to_micros (today_at_start_time now) + k * (ih * US_PER_HOUR)
    /\ forall k', 0 <= k' ->
         to_micros now < to_micros (today_at_start_time now) + k' * (ih * US_PER_HOUR) ->
         k <= k'.
Proof.
  intros Hv Hih. rewrite (start_datetime_unfold now ih Hv) by lia. cbv zeta.
  set (cand := today_at_start_time now).
  pose proof (today_at_start_time_valid now Hv) as Hc. fold cand in Hc.
  assert (Hnc : to_micros now = to_micros cand + (time_of_day now - time_of_day cand)).
  { rewrite !to_micros_split. unfold toordinal. simpl. lia. }
  destruct (Z.leb_spec (time_of_day cand) (time_of_day now)) as [Hle|Hlt].
  - set (delta := time_of_day now - time_of_day cand) in *.
    assert (HP : 0 < US_PER_HOUR * ih) by (unfold US_PER_HOUR, US_PER_SECOND; lia).
    pose proof (Z.div_mod delta (US_PER_HOUR * ih) ltac:(lia)) as Hdm.
    pose proof (Z.mod_pos_bound delta (US_PER_HOUR * ih) HP) as Hr.
    set (q := delta / (US_PER_HOUR * ih)) in *.
    assert (Hq : 0 <= q) by (apply Z.div_pos; lia).
    set (h := t_hour START_TIME + (q + 1) * ih).
    assert (Hh : h = 12 + (q + 1) * ih) by reflexivity.
    pose proof (Z.div_mod h 24 ltac:(lia)) as Hh24.
    pose proof (Z.mod_pos_bound h 24 ltac:(lia)) as Hhm.
    assert (Hgrid : forall t', valid t' = true ->
              to_micros t' = to_micros cand + (q + 1) * (ih * US_PER_HOUR) ->
              valid t' = true /\ to_micros now < to_micros t' /\
              exists k, 0 <= k
                /\ to_micros t' = to_micros cand + k * (ih * US_PER_HOUR)
                /\ forall k', 0 <= k' ->
                     to_micros now < to_micros cand + k' * (ih * US_PER_HOUR) -> k <= k').
    { intros t' Hvt Ht'. split; [exact Hvt|]. split; [nia|].
      exists (q + 1). split; [lia|]. split; [exact Ht'|].
      intros k' Hk' Hlt. destruct (Z.le_gt_cases (q + 1) k') as [|Hgt]; [assumption|].
      exfalso. assert (k' * (US_PER_HOUR * ih) <= q * (US_PER_HOUR * ih))
        by (apply Z.mul_le_mono_nonneg_r; lia). nia. }
    destruct (Z.leb_spec 24 h) as [H24|H24].
    + intros Hnew. apply datetime_new_Ok in Hnew as [-> Hvt].
      apply Hgrid; [exact Hvt|].
      rewrite to_micros_set_hour_day. unfold US_PER_DAY.
      change (day cand) with (day now). change (hour cand) with 12. nia.
    + intros Hnew. inversion Hnew; subst t.
      assert (Hhn : 0 <= h) by nia.
      rewrite Z.mod_small by lia.
      apply Hgrid.
      * apply valid_bounds in Hc. apply valid_intro; simpl in *; lia.
      * rewrite to_micros_set_hour. change (hour cand) with 12. nia.
  - intros Hnew. inversion Hnew; subst t.
    split; [exact Hc|]. split; [lia|].
    exists 0. split; [lia|]. split; [lia|]. intros; lia.
Qed.

(** Lines 58-82 return a start time exactly when the day it falls on is still
    a day of the current month. *)
Lemma start_datetime_returns now ih :
  valid now = true -> 1 <= ih ->
  let h := t_hour START_TIME
           + ((time_of_day now - time_of_day (today_at_start_time now))
                / (US_PER_HOUR * ih) + 1) * ih in
  (time_of_day now < time_of_day (today_at_start_time now)
   \/ day now + h / 24 <= days_in_month (year now) (month now)) ->
  exists t, start_datetime now ih = Ok t.
Proof.
  intros Hv Hih h Hcond. rewrite (start_datetime_unfold now ih Hv) by lia. cbv zeta.
  fold h. set (cand := today_at_start_time now) in *.
  pose proof (today_at_start_time_valid now Hv) as Hc. fold cand in Hc.
  destruct (Z.leb_spec (time_of_day cand) (time_of_day now)) as [Hle|Hlt]; [|eauto].
  destruct Hcond as [|Hday]; [lia|].
  destruct (Z.leb_spec 24 h) as [H24|H24]; [|eauto].
  eexists. apply datetime_new_valid.
  pose proof (Z.mod_pos_bound h 24 ltac:(lia)) as Hhm.
  assert (0 <= h / 24) by (apply Z.div_pos; lia).
  apply valid_bounds in Hc, Hv. apply valid_intro; simpl in *; try lia.
Qed.

(** While today's [START_TIME] is ahead, it is the start time, whatever the
    interval; once it has passed, a zero interval raises at line 71. *)
Lemma start_datetime_before_start_time now ih :
  valid now = true ->
  time_of_day now < time_of_day (today_at_start_time now) ->
  start_datetime now ih = Ok (today_at_start_time now).
Proof.
  intros Hv Hlt. pose proof (today_at_start_time_valid now Hv) as Hc.
  unfold start_datetime, replace.
  rewrite (datetime_new_valid _ Hc). cbn [rbind].
  rewrite (leb_same_day _ now Hc Hv) by reflexivity.
  destruct (Z.leb_spec (time_of_day (today_at_start_time now)) (time_of_day now)); [lia|].
  reflexivity.
Qed.

Lemma start_datetime_zero_interval now :
  valid now = true ->
  time_of_day (today_at_start_time now) <= time_of_day now ->
  start_datetime now 0 = Raise (mk_exn ZeroDivisionError "float floor division by zero").
Proof.
  intros Hv Hle. pose proof (today_at_start_time_valid now Hv) as Hc.
  unfold start_datetime, replace.
  rewrite (datetime_new_valid _ Hc). cbn [rbind].
  rewrite (leb_same_day _ now Hc Hv) by reflexivity.
  destruct (Z.leb_spec (time_of_day (today_at_start_time now)) (time_of_day now)); [|lia].
  reflexivity.
Qed.

End StartDatetime.

(** ** Adding a timedelta *)

Section DatetimeAdd.

Lemma days_before_year_succ y :
  days_before_year (y + 1) = days_before_year y + 365 + (if is_leap y then 1 else 0).
Proof.
  unfold days_before_year, is_leap. cbv zeta.
  replace (y + 1 - 1) with y by lia.
  destruct (Z.eqb_spec (y mod 4) 0), (Z.eqb_spec (y mod 100) 0),
    (Z.eqb_spec (y mod 400) 0); simpl; Z.div_mod_to_equations; lia.
Qed.

Lemma next_day_ordinal d :
  date_ok d ->
  toordinal (next_day d) = toordinal d + 1 /\ date_ok (next_day d)
  /\ year d <= year (next_day d) /\ time_of_day (next_day d) = time_of_day d.
Proof.
  destruct d as [y m dd h mi s us]. unfold date_ok, next_day, toordinal, ymd2ord. simpl.
  intros [Hm Hd].
  destruct (Z.ltb_spec dd (days_in_month y m)).
  - simpl. repeat split; lia.
  - assert (dd = days_in_month y m) by lia. subst dd.
    destruct (Z.ltb_spec m 12).
    + simpl. pose proof (days_in_month_bounds y (m + 1)).
      repeat split; try lia.
      assert (Hcases : m = 1 \/ m = 2 \/ m = 3 \/ m = 4 \/ m = 5 \/ m = 6 \/ m = 7
                       \/ m = 8 \/ m = 9 \/ m = 10 \/ m = 11) by lia.
      unfold days_before_month, days_in_month.
      destruct Hcases as [->|[->|[->|[->|[->|[->|[->|[->|[->|[->| ->]]]]]]]]]];
        simpl; destruct (is_leap y); simpl; lia.
    + assert (m = 12) by lia. subst m. simpl.
      rewrite days_before_year_succ.
      unfold days_before_month, days_in_month. simpl.
      destruct (is_leap y); simpl; repeat split; lia.
Qed.

Lemma add_days_ordinal n d :
  date_ok d ->
  toordinal (add_days n d) = toordinal d + Z.of_nat n /\ date_ok (add_days n d)
  /\ year d <= year (add_days n d) /\ time_of_day (add_days n d) = time_of_day d.
Proof.
  intros Hd. induction n as [|n IH].
  - simpl. split; [lia | split; [exact Hd | split; [lia | reflexivity]]].
  - destruct IH as (Ho & Hok & Hy & Ht).
    change (add_days (S n) d) with (next_day (add_days n d)).
    destruct (next_day_ordinal _ Hok) as (Ho' & Hok' & Hy' & Ht').
    split; [lia | split; [exact Hok' | split; [lia | congruence]]].
Qed.

(** [d + delta] is [delta] microseconds after [d], and a valid datetime. *)
Lemma add_to_micros d delta d' :
  valid d = true -> 0 <= delta ->
  Datetime.add d delta = Ok d' ->
  to_micros d' = to_micros d + delta /\ valid d' = true.
Proof.
  intros Hv Hdelta. unfold Datetime.add. cbv zeta.
  pose proof (time_of_day_bounds d Hv) as Htod.
  pose proof (valid_bounds d Hv) as Hb.
  set (t := time_of_day d + delta).
  assert (Hdays : 0 <= t / US_PER_DAY)
    by (apply Z.div_pos; unfold US_PER_DAY, US_PER_HOUR, US_PER_SECOND; lia).
  destruct (add_days_ordinal (Z.to_nat (t / US_PER_DAY)) d) as (Ho & Hok & Hy & _);
    [unfold date_ok; lia|].
  set (dd := add_days _ d) in *.
  destruct (Z.leb_spec (year dd) MAXYEAR) as [Hmax|]; [|discriminate].
  intros H. inversion H; subst d'. clear H.
  rewrite Z2Nat.id in Ho by lia.
  assert (Hr : 0 <= t mod US_PER_DAY < US_PER_DAY)
    by (apply Z.mod_pos_bound; unfold US_PER_DAY, US_PER_HOUR, US_PER_SECOND; lia).
  pose proof (Z.div_mod t US_PER_DAY) as Hdm.
  set (r := t mod US_PER_DAY) in *.
  split.
  - rewrite (to_micros_split d). unfold to_micros, toordinal in *. simpl.
    unfold US_PER_DAY, US_PER_HOUR, US_PER_MINUTE, US_PER_SECOND in *.
    subst t. Z.div_mod_to_equations. lia.
  - destruct Hok as [Hm Hd]. unfold MAXYEAR in Hmax.
    apply valid_intro; simpl; try lia;
      unfold US_PER_DAY, US_PER_HOUR, US_PER_MINUTE, US_PER_SECOND in *;
      Z.div_mod_to_equations; lia.
Qed.

End DatetimeAdd.

(** ** The first start time: claims *)

Section FirstFire.

(** Past today's [START_TIME], when the next grid point falls beyond the last
    day of the current month, the [replace(day=...)] of line 79 raises. *)
Lemma start_datetime_raises_past_month_end now ih :
  valid now = true -> 1 <= ih ->
  time_of_day (today_at_start_time now) <= time_of_day now ->
  days_in_month (year now) (month now)
    < day now + (t_hour START_TIME
                 + ((time_of_day now - time_of_day (today_at_start_time now))
                      / (US_PER_HOUR * ih) + 1) * ih) / 24 ->
  start_datetime now ih = Raise (mk_exn ValueError "day is out of range for month").
Proof.
  intros Hv Hih Hpast Hover.
  rewrite (start_datetime_unfold now ih Hv) by lia. cbv zeta.
  destruct (Z.leb_spec (time_of_day (today_at_start_time now)) (time_of_day now)); [|lia].
  set (h := t_hour START_TIME + _) in *.
  destruct (Z.leb_spec 24 h) as [|Hlt].
  - unfold datetime_new, check_date_fields. simpl.
    destruct (Z.leb_spec (day now + h / 24) (days_in_month (year now) (month now))); [lia|].
    rewrite !andb_false_r. reflexivity.
  - assert (0 <= h).
    { subst h. assert (0 <= (time_of_day now - time_of_day (today_at_start_time now))
                              / (US_PER_HOUR * ih)).
      { apply Z.div_pos; unfold US_PER_HOUR, US_PER_SECOND; lia. }
      change (t_hour START_TIME) with 12. nia. }
    rewrite (Z.div_small h 24) in Hover by lia.
    apply valid_bounds in Hv. lia.
Qed.

(** C1, at a clock reading the claim covers: on 31 January 2025 at 22:30 with
    a two-hour interval, the smallest grid point after the reading is
    1 February 00:10 (six intervals after 12:10, a valid datetime), yet the
    computation of lines 58-82 raises [ValueError] instead of returning it. *)
Theorem C1_start_datetime_raises_at_month_end :
  valid (mk_datetime 2025 1 31 22 30 0 0) = true
  /\ start_datetime (mk_datetime 2025 1 31 22 30 0 0) 2
     = Raise (mk_exn ValueError "day is out of range for month")
  /\ valid (mk_datetime 2025 2 1 0 10 0 0) = true
  /\ to_micros (mk_datetime 2025 1 31 22 30 0 0) < to_micros (mk_datetime 2025 2 1 0 10 0 0)
  /\ to_micros (mk_datetime 2025 2 1 0 10 0 0)
     = to_micros (today_at_start_time (mk_datetime 2025 1 31 22 30 0 0))
       + 6 * (2 * US_PER_HOUR)
  /\ to_micros (today_at_start_time (mk_datetime 2025 1 31 22 30 0 0))
       + 5 * (2 * US_PER_HOUR) <= to_micros (mk_datetime 2025 1 31 22 30 0 0).
Proof. vm_compute. repeat split; congruence. Qed.

(** When the clock reads exactly today's [START_TIME], the comparison of
    line 68 takes that occurrence as passed: the start time is never the
    reading itself, one interval is counted, so a returned start time is the
    reading plus one interval, and it is returned on the same day for every
    interval up to eleven hours; with the two-hour interval it is 14:10. *)
Lemma reading_equal_to_start_time now ih :
  valid now = true -> now = today_at_start_time now -> 1 <= ih ->
  start_datetime now ih <> Ok now
  /\ (forall t, start_datetime now ih = Ok t ->
        to_micros t = to_micros now + ih * US_PER_HOUR)
  /\ (ih <= 11 -> start_datetime now ih = Ok (set_hour (12 + ih) now))
  /\ start_datetime now 2 = Ok (set_hour 14 now).
Proof.
  intros Hv Hnow Hih.
  assert (Hsame : forall i, 1 <= i -> i <= 11 ->
            start_datetime now i = Ok (set_hour (12 + i) now)).
  { intros i Hi Hi'. rewrite (start_datetime_unfold now i Hv) by lia. cbv zeta.
    rewrite <- Hnow. rewrite Z.leb_refl, Z.sub_diag, Z.div_0_l
      by (unfold US_PER_HOUR, US_PER_SECOND; lia).
    change (t_hour START_TIME) with 12. replace ((0 + 1) * i) with i by lia.
    destruct (Z.leb_spec 24 (12 + i)); [lia|].
    rewrite Z.mod_small by lia. reflexivity. }
  assert (Hone : forall t, start_datetime now ih = Ok t ->
            to_micros t = to_micros now + ih * US_PER_HOUR).
  { intros t Ht.
    destruct (start_datetime_sound now ih t Hv Hih Ht) as (_ & Hlt & k & Hk & Hgrid & Hmin).
    rewrite <- Hnow in Hgrid, Hmin.
    assert (HH : 0 < ih * US_PER_HOUR) by (unfold US_PER_HOUR, US_PER_SECOND; lia).
    assert (k <= 1) by (apply Hmin; lia).
    assert (k = 1) by nia. subst k. lia. }
  split; [|split; [exact Hone | split; [intros; apply Hsame; lia | apply Hsame; lia]]].
  intros Heq. specialize (Hone now Heq).
  unfold US_PER_HOUR, US_PER_SECOND in Hone. lia.
Qed.

(** The comparison of line 68 is strict in the reading: on an interval of at
    least one hour the start time is today's [START_TIME] exactly when the
    reading is before it; a reading equal to it gets a later start. *)
Lemma start_datetime_is_today_iff_before now ih :
  valid now = true -> 1 <= ih ->
  (start_datetime now ih = Ok (today_at_start_time now)
   <-> time_of_day now < time_of_day (today_at_start_time now)).
Proof.
  intros Hv Hih. split.
  - intros Hrun.
    destruct (start_datetime_sound now ih _ Hv Hih Hrun) as (_ & Hlt & _).
    rewrite !to_micros_split in Hlt. unfold toordinal in Hlt. simpl in Hlt. lia.
  - intros Hlt. rewrite (start_datetime_unfold now ih Hv) by lia. cbv zeta.
    destruct (Z.leb_spec (time_of_day (today_at_start_time now)) (time_of_day now));
      [lia | reflexivity].
Qed.

(** C9, at a reading the claim covers: on 31 January 2025 at exactly 12:10:00
    with a twelve-hour interval, the occurrence of 12:10 is taken as passed
    and the next period, 1 February 00:10 (one interval after the reading, a
    valid datetime), is what should be scheduled; the computation of lines
    58-82 raises [ValueError] instead. With the two-hour interval of the
    claim's scenario the same reading gives 14:10. *)
Theorem C9_equal_reading_raises_at_month_end :
  mk_datetime 2025 1 31 12 10 0 0 = today_at_start_time (mk_datetime 2025 1 31 12 10 0 0)
  /\ start_datetime (mk_datetime 2025 1 31 12 10 0 0) 12
     = Raise (mk_exn ValueError "day is out of range for month")
  /\ valid (mk_datetime 2025 2 1 0 10 0 0) = true
  /\ to_micros (mk_datetime 2025 2 1 0 10 0 0)
     = to_micros (mk_datetime 2025 1 31 12 10 0 0) + 12 * US_PER_HOUR
  /\ start_datetime (mk_datetime 2025 1 31 12 10 0 0) 2
     = Ok (mk_datetime 2025 1 31 14 10 0 0).
Proof. vm_compute. repeat split; congruence. Qed.

End FirstFire.

(** ** Registration of the schedules *)

Section Registration.

Import Manager.

Variable clock : nat -> datetime.

(** A successful registration: what was computed and what was stored. *)
Lemma add_spawn_schedule_Ok c s s' :
  _add_spawn_schedule clock c s = (s', Ok tt) ->
  exists start followup_start,
    start_datetime (clock (clock_reads s)) (interval_hours c) = Ok start
    /\ Datetime.add start (timedelta_of 0 5) = Ok followup_start
    /\ jobs (scheduler s) !! job_id c = None
    /\ jobs (scheduler s) !! followup_job_id c = None
    /\ job_id c <> followup_job_id c
    /\ jobs (scheduler s')
       = <[followup_job_id c := followup_job c followup_start]>
           (<[job_id c := main_job c start]> (jobs (scheduler s)))
    /\ timing_loops (scheduler s') = timing_loops (scheduler s)
    /\ is_running s' = is_running s
    /\ clock_reads s' = S (clock_reads s)
    /\ calls s' = calls s.
Proof.
  unfold _add_spawn_schedule, try_except, bind, lift, datetime_now. cbn [handle].
  destruct (start_datetime _ _) as [start|e] eqn:Hstart.
  2:{ destruct (isinstance e Exception); cbn; discriminate. }
  destruct (Datetime.add start _) as [fstart|e] eqn:Hadd.
  2:{ destruct (isinstance e Exception); cbn; discriminate. }
  unfold on_scheduler, add_job. cbn.
  destruct (jobs (scheduler s) !! job_id c) eqn:Hj1; cbn.
  { discriminate. }
  destruct (decide (job_id c = followup_job_id c)) as [Heq|Hne].
  { rewrite <- Heq, lookup_insert_eq. cbn. discriminate. }
  rewrite lookup_insert_ne by exact Hne.
  destruct (jobs (scheduler s) !! followup_job_id c) eqn:Hj2; cbn.
  { discriminate. }
  intros H. inversion H; subst s'. cbn.
  exists start, fstart. repeat split; auto.
Qed.

(** A registration that does not return normally raises: with an id that is
    already stored, or with the two ids of the config equal, it raises. *)
Lemma add_spawn_schedule_collision c s :
  is_Some (jobs (scheduler s) !! job_id c)
  \/ is_Some (jobs (scheduler s) !! followup_job_id c)
  \/ job_id c = followup_job_id c ->
  exists s' e, _add_spawn_schedule clock c s = (s', Raise e).
Proof.
  intros Hcol. destruct (_add_spawn_schedule clock c s) as [s' [[]|e]] eqn:Hrun.
  - apply add_spawn_schedule_Ok in Hrun
      as (start & fstart & _ & _ & Hn1 & Hn2 & Hne & _).
    destruct Hcol as [[j Hj]|[[j Hj]|Heq]]; congruence.
  - eauto.
Qed.

(** Both jobs of a registered config carry the options of lines 109-111 and
    121-123: a grace time of 60 seconds, coalescing, one instance at most. *)
Lemma registered_job_options c s s' i :
  _add_spawn_schedule clock c s = (s', Ok tt) ->
  i ∈ config_ids c ->
  exists j,
    jobs (scheduler s') !! i = Some j
    /\ misfire_grace_time j = 60 /\ coalesce j = true /\ max_instances j = 1.
Proof.
  intros Hrun Hi.
  apply add_spawn_schedule_Ok in Hrun
    as (start & fstart & _ & _ & _ & _ & Hne & Hjobs & _).
  rewrite Hjobs. unfold config_ids in Hi.
  apply elem_of_cons in Hi as [->|Hi]; [|apply elem_of_cons in Hi as [->|Hi]].
  - exists (main_job c start).
    rewrite lookup_insert_ne by congruence. rewrite lookup_insert_eq. auto.
  - exists (followup_job c fstart). rewrite lookup_insert_eq. auto.
  - inversion Hi.
Qed.

(** Whatever a registration does, it leaves the running flag, the timing
    loops and the callback alone and reads the clock once. *)
Lemma add_spawn_schedule_frame c s s' r :
  _add_spawn_schedule clock c s = (s', r) ->
  is_running s' = is_running s
  /\ timing_loops (scheduler s') = timing_loops (scheduler s)
  /\ clock_reads s' = S (clock_reads s)
  /\ calls s' = calls s
  /\ (forall i, is_Some (jobs (scheduler s) !! i) -> is_Some (jobs (scheduler s') !! i)).
Proof.
  unfold _add_spawn_schedule, try_except, bind, lift, datetime_now. cbn [handle].
  destruct (start_datetime _ _) as [start|e] eqn:Hstart.
  2:{ destruct (isinstance e Exception); cbn; intros H; inversion H; subst; cbn; auto. }
  destruct (Datetime.add start _) as [fstart|e] eqn:Hadd.
  2:{ destruct (isinstance e Exception); cbn; intros H; inversion H; subst; cbn; auto. }
  unfold on_scheduler, add_job. cbn.
  destruct (jobs (scheduler s) !! job_id c) eqn:Hj1; cbn.
  { intros H; inversion H; subst; cbn; auto. }
  destruct (_ !! followup_job_id c) eqn:Hj2; cbn.
  - intros H; inversion H; subst; cbn. repeat split; auto.
    intros i Hi. destruct (decide (job_id c = i)) as [<-|Hne].
    + rewrite lookup_insert_eq. eauto.
    + rewrite lookup_insert_ne by exact Hne. exact Hi.
  - intros H; inversion H; subst; cbn. repeat split; auto.
    intros i Hi. destruct (decide (followup_job_id c = i)) as [<-|Hne].
    + rewrite lookup_insert_eq. eauto.
    + rewrite lookup_insert_ne by exact Hne.
      destruct (decide (job_id c = i)) as [<-|Hne'].
      * rewrite lookup_insert_eq. eauto.
      * rewrite lookup_insert_ne by exact Hne'. exact Hi.
Qed.

End Registration.

Section Setup.

Import Manager.

Variable clock : nat -> datetime.

(** A loop that raises does so in the body of one element, after the bodies
    of the elements before it returned; the elements after it are not run. *)
Lemma for_each_Raise {St A} (l : list A) (body : A -> M St unit) s s' e :
  for_each l body s = (s', Raise e) ->
  exists pre x post s1,
    l = (pre ++ x :: post)%list
    /\ for_each pre body s = (s1, Ok tt)
    /\ body x s1 = (s', Raise e).
Proof.
  revert s. induction l as [|x l IH]; intros s; cbn.
  - unfold ret. discriminate.
  - unfold bind. destruct (body x s) as [s1 [[]|e1]] eqn:Hx.
    + intros H. destruct (IH _ H) as (pre & y & post & s2 & -> & Hpre & Hy).
      exists (x :: pre), y, post, s2. cbn. unfold bind. rewrite Hx. auto.
    + intros H. inversion H; subst. exists [], x, l, s. cbn. auto.
Qed.

Lemma for_each_frame configs s s' r :
  for_each configs (_add_spawn_schedule clock) s = (s', r) ->
  is_running s' = is_running s
  /\ timing_loops (scheduler s') = timing_loops (scheduler s)
  /\ (clock_reads s' <= clock_reads s + length configs)%nat
  /\ calls s' = calls s.
Proof.
  revert s. induction configs as [|c configs IH]; intros s; cbn.
  - unfold ret. intros H; inversion H; subst. repeat split; auto; lia.
  - unfold bind. destruct (_add_spawn_schedule clock c s) as [s1 [[]|e1]] eqn:Hc.
    + intros H. apply IH in H as (? & ? & ? & ?).
      apply add_spawn_schedule_frame in Hc as (? & ? & ? & ? & _).
      repeat split; try congruence; lia.
    + intros H; inversion H; subst.
      apply add_spawn_schedule_frame in Hc as (? & ? & ? & ? & _).
      repeat split; try congruence; lia.
Qed.

Lemma for_each_collision configs s :
  id_collision s configs ->
  exists s' e, for_each configs (_add_spawn_schedule clock) s = (s', Raise e).
Proof.
  revert s. induction configs as [|c configs IH]; intros s Hcol.
  - destruct Hcol as [(i & Hi & _)|Hnd].
    + cbn in Hi. inversion Hi.
    + destruct Hnd. constructor.
  - cbn [for_each]. unfold bind.
    destruct (_add_spawn_schedule clock c s) as [s1 [[]|e1]] eqn:Hc; [|eauto].
    pose proof (add_spawn_schedule_frame clock c s s1 _ Hc) as (_ & _ & _ & _ & Hmono).
    apply add_spawn_schedule_Ok in Hc
      as (start & fstart & _ & _ & Hn1 & Hn2 & Hne & Hjobs & _).
    apply IH. unfold id_collision in *. cbn [all_ids flat_map config_ids app] in Hcol.
    fold (all_ids configs) in Hcol.
    assert (Hstored : forall i, i = job_id c \/ i = followup_job_id c ->
              is_Some (jobs (scheduler s1) !! i)).
    { intros i Hi. rewrite Hjobs.
      destruct (decide (followup_job_id c = i)) as [<-|Hni].
      - rewrite lookup_insert_eq. eauto.
      - rewrite lookup_insert_ne by exact Hni.
        destruct Hi as [->| ->]; [|congruence]. rewrite lookup_insert_eq. eauto. }
    destruct Hcol as [(i & Hi & Hsome)|Hnd].
    + apply elem_of_cons in Hi as [->|Hi].
      { rewrite Hn1 in Hsome. destruct Hsome; discriminate. }
      apply elem_of_cons in Hi as [->|Hi].
      { rewrite Hn2 in Hsome. destruct Hsome; discriminate. }
      left. exists i. split; [exact Hi | apply Hmono, Hsome].
    + destruct (decide (job_id c ∈ all_ids configs)) as [Hin|Hnin].
      { left. exists (job_id c). split; [exact Hin | apply Hstored; auto]. }
      destruct (decide (followup_job_id c ∈ all_ids configs)) as [Hin'|Hnin'].
      { left. exists (followup_job_id c). split; [exact Hin' | apply Hstored; auto]. }
      right. intros Hnodup. apply Hnd.
      apply NoDup_cons. split.
      * intros Hin. apply elem_of_cons in Hin as [?|?]; [congruence | contradiction].
      * apply NoDup_cons. split; assumption.
Qed.

End Setup.

Section SetupClaims.

Import Manager.

(** C7 as stated fails: a config whose interval is below one hour is
    registered without an error when today's [START_TIME] is still ahead;
    nothing in [_add_spawn_schedule] checks the interval. *)
Lemma C7_zero_interval_is_registered :
  interval_hours zero_interval_config < 1
  /\ snd (setup_schedules morning_clock [zero_interval_config] init) = Ok tt
  /\ trigger_hours <$> (trigger <$>
       jobs (scheduler (fst (setup_schedules morning_clock [zero_interval_config] init)))
         !! "zero_spawn") = Some 0.
Proof. vm_compute. repeat split; congruence. Qed.

End SetupClaims.

(** ** The follow-up job *)

Section Followup.

Import Manager.

(** Every start time that lines 58-82 return went through the validation of
    [replace]. *)
Lemma start_datetime_valid now ih t :
  start_datetime now ih = Ok t -> valid t = true.
Proof.
  unfold start_datetime, replace.
  destruct (datetime_new (today_at_start_time now)) as [c|] eqn:Hc; cbn [rbind];
    [|discriminate].
  apply datetime_new_Ok in Hc as [-> Hc].
  destruct (leb _ now).
  - destruct (hours_floordiv _ _) as [q|]; cbn [rbind]; [|discriminate].
    destruct (datetime_new (set_hour _ _)) as [c'|] eqn:Hc'; cbn [rbind]; [|discriminate].
    apply datetime_new_Ok in Hc' as [-> Hc'].
    destruct (24 <=? _).
    + intros H. apply datetime_new_Ok in H as [-> H]. exact H.
    + intros H. inversion H; subst. exact Hc'.
  - intros H. inversion H; subst. exact Hc.
Qed.

(** C2: for every config that [_add_spawn_schedule] registers, the main job and
    the follow-up job are both stored with an interval trigger of the config's
    [interval_hours], and every occurrence of the follow-up trigger is exactly
    five minutes after the same occurrence of the main trigger. *)
Theorem C2_followup_five_minutes_after_main clock c s s' :
  _add_spawn_schedule clock c s = (s', Ok tt) ->
  exists j f,
    jobs (scheduler s') !! job_id c = Some j
    /\ jobs (scheduler s') !! followup_job_id c = Some f
    /\ trigger_hours (trigger j) = interval_hours c
    /\ trigger_hours (trigger f) = interval_hours c
    /\ forall k, fire_time (trigger f) k = fire_time (trigger j) k + 5 * US_PER_MINUTE.
Proof.
  intros Hrun.
  apply add_spawn_schedule_Ok in Hrun
    as (start & fstart & Hstart & Hadd & _ & _ & Hne & Hjobs & _).
  exists (main_job c start), (followup_job c fstart). rewrite Hjobs.
  split; [rewrite lookup_insert_ne by congruence; apply lookup_insert_eq|].
  split; [apply lookup_insert_eq|].
  split; [reflexivity|]. split; [reflexivity|].
  intros k. unfold fire_time. cbn.
  apply start_datetime_valid in Hstart.
  destruct (add_to_micros start (timedelta_of 0 5) fstart Hstart) as [Hm _];
    [unfold timedelta_of, US_PER_HOUR, US_PER_MINUTE, US_PER_SECOND; lia | exact Hadd |].
  rewrite Hm. unfold timedelta_of. lia.
Qed.

Lemma C2_followup_five_minutes_after_main_witness :
  exists j f,
    jobs (scheduler (fst (_add_spawn_schedule morning_clock
                            (mk_config "Pustietate" "m" "f" 3 "p_spawn" "p_followup") init)))
      !! "p_spawn" = Some j
    /\ jobs (scheduler (fst (_add_spawn_schedule morning_clock
                               (mk_config "Pustietate" "m" "f" 3 "p_spawn" "p_followup") init)))
         !! "p_followup" = Some f
    /\ forall k, fire_time (trigger f) k = fire_time (trigger j) k + 5 * US_PER_MINUTE.
Proof.
  destruct (C2_followup_five_minutes_after_main morning_clock
              (mk_config "Pustietate" "m" "f" 3 "p_spawn" "p_followup") init
              (fst (_add_spawn_schedule morning_clock
                      (mk_config "Pustietate" "m" "f" 3 "p_spawn" "p_followup") init)))
    as (j & f & Hj & Hf & _ & _ & Hk).
  - vm_compute. reflexivity.
  - exists j, f. split; [exact Hj | split; [exact Hf | exact Hk]].
Defined.

End Followup.

(** ** Dispatch *)

Section Dispatch.

Import Manager.

Variable message_callback : nat -> string -> result unit.

(** A callback that raises an [Exception]: the notification method logs the
    failure and returns normally, having called the callback once. *)
Lemma send_spawn_notification_swallows message spawn_name s e :
  message_callback (length (calls s)) message = Raise e ->
  isinstance e Exception = true ->
  _send_spawn_notification message_callback message spawn_name s
  = (mk_state (scheduler s) (is_running s)
       ((log s ++ [(INFO, SendingNotification spawn_name)])
          ++ [(ERROR, FailedSendNotification spawn_name e)])
       (clock_reads s) (calls s ++ [message]),
     Ok tt).
Proof.
  intros Hcb He.
  unfold _send_spawn_notification, try_except, bind, await_message_callback, logger.
  cbn. rewrite Hcb. cbn. rewrite He. reflexivity.
Qed.

Lemma send_spawn_notification_success message spawn_name s :
  message_callback (length (calls s)) message = Ok tt ->
  _send_spawn_notification message_callback message spawn_name s
  = (mk_state (scheduler s) (is_running s)
       ((log s ++ [(INFO, SendingNotification spawn_name)])
          ++ [(INFO, SentNotification spawn_name)])
       (clock_reads s) (calls s ++ [message]),
     Ok tt).
Proof.
  intros Hcb.
  unfold _send_spawn_notification, try_except, bind, await_message_callback, logger.
  cbn. rewrite Hcb. reflexivity.
Qed.

(** What [except Exception] does not catch passes through: a cancellation of
    the task at the [await] leaves the method as it came. *)
Lemma send_spawn_notification_cancelled message spawn_name s e :
  message_callback (length (calls s)) message = Raise e ->
  isinstance e Exception = false ->
  snd (_send_spawn_notification message_callback message spawn_name s) = Raise e.
Proof.
  intros Hcb He.
  unfold _send_spawn_notification, try_except, bind, await_message_callback, logger.
  cbn. rewrite Hcb. cbn. rewrite He. reflexivity.
Qed.

(** C5: when the callback raises an error during a fire, [fire] still ends
    normally: the error is logged, the callback has been called exactly once
    for the occurrence, the job's next fire time is advanced by its interval,
    and the manager's running flag and timing loop are untouched. *)
Theorem C5_dispatch_error_is_swallowed j s e :
  message_callback (length (calls s)) (fst (job_args j)) = Raise e ->
  isinstance e Exception = true ->
  exists s',
    fire message_callback j s = (s', Ok tt)
    /\ snd (_send_spawn_notification message_callback (fst (job_args j))
              (snd (job_args j)) s) = Ok tt
    /\ log s' = ((log s ++ [(INFO, SendingNotification (snd (job_args j)))])
                  ++ [(ERROR, FailedSendNotification (snd (job_args j)) e)])%list
    /\ calls s' = (calls s ++ [fst (job_args j)])%list
    /\ next_run_time <$> (jobs (scheduler s') !! id j)
       = Some ((fun t => t + trigger_hours (trigger j) * US_PER_HOUR) <$> next_run_time j)
    /\ running <$> (jobs (scheduler s') !! id j) = Some false
    /\ is_running s' = is_running s
    /\ timing_loops (scheduler s') = timing_loops (scheduler s).
Proof.
  intros Hcb He.
  unfold fire, put_job, on_scheduler. unfold bind at 1. cbn.
  set (s1 := set_scheduler _ s).
  assert (Hcb1 : message_callback (length (calls s1)) (fst (job_args j)) = Raise e)
    by exact Hcb.
  pose proof (send_spawn_notification_swallows _ (snd (job_args j)) s1 e Hcb1 He) as Hsend.
  unfold bind. rewrite Hsend. cbn.
  eexists. split; [reflexivity|]. cbn.
  split; [rewrite (send_spawn_notification_swallows _ _ s e Hcb He); reflexivity|].
  split; [reflexivity|]. split; [reflexivity|].
  rewrite lookup_insert_eq. cbn. auto.
Qed.

End Dispatch.

Lemma C5_dispatch_error_is_swallowed_witness :
  exists s',
    Manager.fire forbidden_callback
      (main_job (mk_config "Pustietate" "m" "f" 3 "p_spawn" "p_followup")
         (mk_datetime 2025 6 15 12 10 0 0))
      (Manager.set_is_running true Manager.init) = (s', Ok tt)
    /\ Manager.calls s' = ["m"]
    /\ next_run_time <$> (jobs (Manager.scheduler s') !! "p_spawn")
       = Some (Some (to_micros (mk_datetime 2025 6 15 15 10 0 0)))
    /\ Manager.is_running s' = true.
Proof.
  destruct (C5_dispatch_error_is_swallowed forbidden_callback
              (main_job (mk_config "Pustietate" "m" "f" 3 "p_spawn" "p_followup")
                 (mk_datetime 2025 6 15 12 10 0 0))
              (Manager.set_is_running true Manager.init)
              (mk_exn Forbidden "403 Forbidden (error code: 50013): Missing Permissions")
              eq_refl eq_refl)
    as (s' & Hrun & _ & _ & Hcalls & Hnext & _ & Hr & _).
  exists s'. split; [exact Hrun|]. split; [exact Hcalls|].
  split; [exact Hnext | exact Hr].
Defined.


(** ** A fire while the job is running *)

Section Overlap.

Import Manager.

Variable message_callback : nat -> string -> result unit.


End Overlap.


(** ** Start and stop *)

Section StartStop.

Import Manager.

(** Logging the next run times only extends the log. *)
Lemma for_each_log_jobs (l : list Job) s :
  exists lg,
    for_each l (fun job =>
      match next_run_time job with
      | Some next_run => logger INFO (NextRun (job_name job) next_run)
      | None => logger WARNING (NoNextRun (job_name job))
      end) s
    = (mk_state (scheduler s) (is_running s) (log s ++ lg) (clock_reads s) (calls s), Ok tt).
Proof.
  revert s. induction l as [|job l IH]; intros s; cbn.
  - exists []. unfold ret. rewrite app_nil_r. destruct s; reflexivity.
  - unfold bind.
    destruct (next_run_time job); cbn;
      match goal with |- context [for_each l _ ?s1] => destruct (IH s1) as [lg ->] end;
      cbn; eexists; rewrite <- app_assoc; reflexivity.
Qed.

Lemma log_next_run_times_frame s :
  exists lg,
    _log_next_run_times s
    = (mk_state (scheduler s) (is_running s) (log s ++ lg) (clock_reads s) (calls s), Ok tt).
Proof.
  unfold _log_next_run_times, try_except, bind. cbn [logger].
  match goal with |- context [for_each ?l _ ?s1] => destruct (for_each_log_jobs l s1) as [lg ->] end.
  cbn. eexists. rewrite <- app_assoc. reflexivity.
Qed.

(** [start] on a manager that is not running: one more timing loop, the flag
    set. *)
Lemma start_not_running s :
  is_running s = false ->
  exists lg,
    start s
    = (mk_state (mk_scheduler (jobs (scheduler s)) (S (timing_loops (scheduler s))))
         true (log s ++ lg) (clock_reads s) (calls s), Ok tt).
Proof.
  intros Hr. unfold start, try_except, bind, get_is_running. rewrite Hr. cbn.
  match goal with |- context [_log_next_run_times ?s1] =>
    destruct (log_next_run_times_frame s1) as [lg ->] end.
  cbn. eexists. rewrite <- app_assoc. reflexivity.
Qed.

Lemma start_running s : is_running s = true -> start s = (s, Ok tt).
Proof.
  intros Hr. unfold start, try_except, bind, get_is_running. rewrite Hr. reflexivity.
Qed.

Lemma stop_not_running s : is_running s = false -> stop s = (s, Ok tt).
Proof.
  intros Hr. unfold stop, try_except, bind, get_is_running. rewrite Hr. reflexivity.
Qed.

Lemma stop_running s :
  is_running s = true ->
  stop s
  = (mk_state (mk_scheduler ∅ 0) false
       (log s ++ [(INFO, SchedulerStopped)]) (clock_reads s) (calls s), Ok tt).
Proof.
  intros Hr. unfold stop, try_except, bind, get_is_running. rewrite Hr. reflexivity.
Qed.

(** C8: [start] on a running manager and [stop] on a stopped one return
    normally and change nothing; so a second [start] in a row, or a second
    [stop] in a row, is such a no-op, and starting a stopped manager twice
    leaves exactly one timing loop. *)
Theorem C8_start_stop_idempotent s :
  (is_running s = true -> start s = (s, Ok tt))
  /\ (is_running s = false -> stop s = (s, Ok tt))
  /\ start (fst (start s)) = (fst (start s), Ok tt)
  /\ stop (fst (stop s)) = (fst (stop s), Ok tt)
  /\ (is_running s = false -> timing_loops (scheduler s) = 0%nat ->
      snd (start s) = Ok tt
      /\ timing_loops (scheduler (fst (start s))) = 1%nat
      /\ timing_loops (scheduler (fst (start (fst (start s))))) = 1%nat).
Proof.
  split; [apply start_running|]. split; [apply stop_not_running|].
  split; [|split].
  - destruct (is_running s) eqn:Hr.
    + rewrite (start_running s Hr). cbn [fst]. apply start_running, Hr.
    + destruct (start_not_running s Hr) as [lg ->]. cbn [fst].
      apply start_running. reflexivity.
  - destruct (is_running s) eqn:Hr.
    + rewrite (stop_running s Hr). cbn [fst]. apply stop_not_running. reflexivity.
    + rewrite (stop_not_running s Hr). cbn [fst]. apply stop_not_running, Hr.
  - intros Hr Hl. destruct (start_not_running s Hr) as [lg Hs]. rewrite Hs. cbn [fst snd].
    rewrite start_running by reflexivity. cbn. rewrite Hl. auto.
Qed.

Lemma C8_start_stop_idempotent_witness :
  start (set_is_running true init) = (set_is_running true init, Ok tt)
  /\ stop init = (init, Ok tt)
  /\ timing_loops (scheduler (fst (start (fst (start init))))) = 1%nat.
Proof.
  pose proof (C8_start_stop_idempotent init) as (_ & Hstop & _ & _ & Hloops).
  pose proof (C8_start_stop_idempotent (set_is_running true init)) as (Hstart & _).
  split; [apply Hstart; reflexivity|].
  split; [apply Hstop; reflexivity|].
  apply Hloops; reflexivity.
Defined.

End StartStop.

(** ** The transport callback *)

Section Transport.

Import Bot.

Variable channel_send : nat -> channel -> embed -> result unit.

(** The three [except] clauses of [send_spawn_message] catch every instance
    of [Exception], each with one error record. *)
Lemma send_clauses_catch e s :
  isinstance e Exception = true ->
  exists m,
    handle
      [(Forbidden, fun _ => logger ERROR NoPermission);
       (HTTPException, fun e => logger ERROR (HTTPError e));
       (Exception, fun e => logger ERROR (UnexpectedSendError e))] e s
    = (mk_state (target_channel s) (log s ++ [(ERROR, m)]) (sent s) (send_calls s), Ok tt).
Proof.
  intros He. cbn [handle].
  destruct (isinstance e Forbidden); [eexists; reflexivity|].
  destruct (isinstance e HTTPException); [eexists; reflexivity|].
  rewrite He. eexists; reflexivity.
Qed.

(** C10: [send_spawn_message] returns normally whatever error the channel
    send raises. Without a target channel nothing is sent and no send is
    attempted; with one, a send that raises delivers nothing and leaves one
    error record in the log, and a send that returns delivers the embed. *)
Theorem C10_send_spawn_message_never_raises message s :
  (forall c x, target_channel s = Some c ->
     channel_send (send_calls s) c (spawn_embed message) = Raise x ->
     isinstance x Exception = true) ->
  exists s',
    send_spawn_message channel_send message s = (s', Ok tt)
    /\ target_channel s' = target_channel s
    /\ (target_channel s = None ->
          sent s' = sent s /\ send_calls s' = send_calls s
          /\ log s' = (log s ++ [(ERROR, TargetChannelNotAvailable)])%list)
    /\ (forall c x, target_channel s = Some c ->
          channel_send (send_calls s) c (spawn_embed message) = Raise x ->
          sent s' = sent s /\ send_calls s' = S (send_calls s)
          /\ exists m, log s' = (log s ++ [(ERROR, m)])%list)
    /\ (forall c, target_channel s = Some c ->
          channel_send (send_calls s) c (spawn_embed message) = Ok tt ->
          sent s' = (sent s ++ [(c, spawn_embed message)])%list
          /\ log s' = (log s ++ [(INFO, SpawnMessageSent message)])%list).
Proof.
  intros Herr.
  unfold send_spawn_message, try_except, bind, get_target_channel.
  destruct (target_channel s) as [c|] eqn:Htc.
  - unfold await_send, set_footer. cbn.
    fold (spawn_embed message).
    destruct (channel_send (send_calls s) c (spawn_embed message)) as [[]|x] eqn:Hsend.
    + cbn. eexists. split; [reflexivity|]. cbn.
      split; [exact Htc|]. split; [discriminate|].
      split; [intros c' x' Hc' Hx'; inversion Hc'; subst; congruence|].
      intros c' Hc' _. inversion Hc'; subst. auto.
    + destruct (send_clauses_catch x
                  (mk_state (Some c) (log s) (sent s) (S (send_calls s)))
                  (Herr c x eq_refl Hsend)) as [m Hm].
      cbn in Hm |- *. rewrite <- ?Htc in Hm |- *.
      exists (mk_state (target_channel s) (log s ++ [(ERROR, m)]) (sent s) (S (send_calls s))).
      split; [exact Hm|]. cbn.
      split; [reflexivity|]. split; [intros Hn; congruence|].
      split; [intros; eauto|].
      intros c' Hc' Hx'. rewrite Htc in Hc'. inversion Hc'; subst. congruence.
  - cbn. eexists. split; [reflexivity|]. cbn.
    split; [exact Htc|]. split; [auto|].
    split; intros; discriminate.
Qed.

End Transport.

Lemma C10_send_spawn_message_never_raises_witness :
  exists s',
    Bot.send_spawn_message refusing_send "Sefii din Pustietate au aparut !!!"
      (Bot.mk_state (Some (Bot.mk_channel "yohara-spawn" 42)) [] [] 0) = (s', Ok tt)
    /\ Bot.sent s' = [].
Proof.
  destruct (C10_send_spawn_message_never_raises refusing_send
              "Sefii din Pustietate au aparut !!!"
              (Bot.mk_state (Some (Bot.mk_channel "yohara-spawn" 42)) [] [] 0))
    as (s' & Hrun & _ & _ & Hfail & _).
  - intros c x _ Hx. vm_compute in Hx. inversion Hx. reflexivity.
  - exists s'. split; [exact Hrun|].
    destruct (Hfail (Bot.mk_channel "yohara-spawn" 42) _ eq_refl eq_refl) as [Hs _].
    exact Hs.
Defined.

(** * Further properties of the code *)

(** ** The start time computation of [_add_spawn_schedule] *)

Section StartDatetimeMore.

(** X1: on an interval of at least one hour, when today's [START_TIME] is
    still ahead or the next grid point falls on a day of the current month,
    lines 58-82 return a valid datetime strictly after the clock reading
    that is the smallest grid point (today's [START_TIME] plus a whole
    number of intervals) after the reading. *)
Theorem X1_start_datetime_is_smallest_grid_point now ih :
  valid now = true -> 1 <= ih ->
  (time_of_day now < time_of_day (today_at_start_time now)
   \/ day now + next_grid_hour now ih / 24 <= days_in_month (year now) (month now)) ->
  exists t,
    start_datetime now ih = Ok t
    /\ valid t = true /\ to_micros now < to_micros t
    /\ exists k, 0 <= k
         /\ to_micros t = to_micros (today_at_start_time now) + k * (ih * US_PER_HOUR)
         /\ forall k', 0 <= k' ->
              to_micros now < to_micros (today_at_start_time now) + k' * (ih * US_PER_HOUR) ->
              k <= k'.
Proof.
  intros Hv Hih Hcond.
  destruct (start_datetime_returns now ih Hv Hih Hcond) as [t Ht].
  exists t. split; [exact Ht|]. exact (start_datetime_sound now ih t Hv Hih Ht).
Qed.

Lemma X1_start_datetime_is_smallest_grid_point_witness :
  exists t,
    start_datetime (mk_datetime 2025 6 15 14 0 0 0) 3 = Ok t
    /\ to_micros (mk_datetime 2025 6 15 14 0 0 0) < to_micros t.
Proof.
  destruct (X1_start_datetime_is_smallest_grid_point (mk_datetime 2025 6 15 14 0 0 0) 3)
    as (t & Ht & _ & Hlt & _).
  - reflexivity.
  - lia.
  - right. vm_compute. discriminate.
  - exists t. split; [exact Ht | exact Hlt].
Defined.

(** X2: on an interval of at least one hour that an interval trigger can
    hold (at most [MAX_INTERVAL_HOURS]), lines 58-82 raise exactly when
    today's [START_TIME] has passed and the next grid point falls beyond the
    last day of the current month; the error is then the [ValueError] of
    [replace(day=...)], and no other error is possible. *)
Theorem X2_start_datetime_raises_iff_past_month_end now ih :
  valid now = true -> 1 <= ih <= MAX_INTERVAL_HOURS ->
  (forall e, start_datetime now ih = Raise e ->
     e = mk_exn ValueError "day is out of range for month")
  /\ ((exists e, start_datetime now ih = Raise e)
      <-> time_of_day (today_at_start_time now) <= time_of_day now
          /\ days_in_month (year now) (month now) < day now + next_grid_hour now ih / 24).
Proof.
  intros Hv [Hih _].
  assert (Hdec : (time_of_day (today_at_start_time now) <= time_of_day now
                  /\ days_in_month (year now) (month now)
                     < day now + next_grid_hour now ih / 24)
                 \/ (time_of_day now < time_of_day (today_at_start_time now)
                     \/ day now + next_grid_hour now ih / 24
                        <= days_in_month (year now) (month now))) by lia.
  destruct Hdec as [[Hpast Hover]|Hin].
  - pose proof (start_datetime_raises_past_month_end now ih Hv Hih Hpast Hover) as Hr.
    split.
    + intros e He. rewrite Hr in He. inversion He. reflexivity.
    + split; [auto | eauto].
  - destruct (start_datetime_returns now ih Hv Hih Hin) as [t Ht].
    split.
    + intros e He. rewrite Ht in He. discriminate.
    + split.
      * intros [e He]. rewrite Ht in He. discriminate.
      * unfold next_grid_hour in *. lia.
Qed.

Lemma X2_start_datetime_raises_iff_past_month_end_witness :
  exists e, start_datetime (mk_datetime 2024 2 29 21 30 0 0) 3 = Raise e.
Proof.
  apply (proj2 (proj2 (X2_start_datetime_raises_iff_past_month_end
                         (mk_datetime 2024 2 29 21 30 0 0) 3 eq_refl
                         ltac:(unfold MAX_INTERVAL_HOURS; lia)))).
  vm_compute. split; [discriminate | reflexivity].
Defined.

(** X3: the interval is not looked at while today's [START_TIME] is ahead:
    the start time is then today's [START_TIME] for every interval, also a
    zero or negative one; once it has passed, a zero interval raises
    [ZeroDivisionError]. *)
Theorem X3_interval_unused_before_start_time now :
  valid now = true ->
  (time_of_day now < time_of_day (today_at_start_time now) ->
   forall ih, start_datetime now ih = Ok (today_at_start_time now))
  /\ (time_of_day (today_at_start_time now) <= time_of_day now ->
      start_datetime now 0
      = Raise (mk_exn ZeroDivisionError "float floor division by zero")).
Proof.
  intros Hv.
  pose proof (today_at_start_time_valid now Hv) as Hc.
  split; intros Hcmp.
  - intros ih. unfold start_datetime, replace.
    rewrite (datetime_new_valid _ Hc). cbn [rbind].
    rewrite (leb_same_day _ now Hc Hv) by reflexivity.
    destruct (Z.leb_spec (time_of_day (today_at_start_time now)) (time_of_day now)); [lia|].
    reflexivity.
  - unfold start_datetime, replace.
    rewrite (datetime_new_valid _ Hc). cbn [rbind].
    rewrite (leb_same_day _ now Hc Hv) by reflexivity.
    destruct (Z.leb_spec (time_of_day (today_at_start_time now)) (time_of_day now)); [|lia].
    reflexivity.
Qed.

Lemma X3_interval_unused_before_start_time_witness :
  start_datetime (mk_datetime 2025 6 15 9 0 0 0) (-5)
  = Ok (mk_datetime 2025 6 15 12 10 0 0)
  /\ start_datetime (mk_datetime 2025 6 15 13 0 0 0) 0
     = Raise (mk_exn ZeroDivisionError "float floor division by zero").
Proof.
  split.
  - apply (proj1 (X3_interval_unused_before_start_time
                    (mk_datetime 2025 6 15 9 0 0 0) eq_refl)).
    vm_compute. reflexivity.
  - apply (proj2 (X3_interval_unused_before_start_time
                    (mk_datetime 2025 6 15 13 0 0 0) eq_refl)).
    vm_compute. discriminate.
Defined.

End StartDatetimeMore.

(** ** Registration, continued *)

Section RegistrationMore.

Import Manager.

Variable clock : nat -> datetime.

(** A returned start time has the minute of [START_TIME] and no seconds. *)
Lemma start_datetime_minute now ih t :
  start_datetime now ih = Ok t ->
  minute t = t_minute START_TIME /\ second t = 0 /\ microsecond t = 0.
Proof.
  unfold start_datetime, replace.
  destruct (datetime_new (today_at_start_time now)) as [c|] eqn:Hc; cbn [rbind];
    [|discriminate].
  apply datetime_new_Ok in Hc as [-> _].
  destruct (leb _ now).
  - destruct (hours_floordiv _ _) as [q|]; cbn [rbind]; [|discriminate].
    destruct (datetime_new (set_hour _ _)) as [c'|] eqn:Hc'; cbn [rbind]; [|discriminate].
    apply datetime_new_Ok in Hc' as [-> _].
    destruct (24 <=? _).
    + intros H. apply datetime_new_Ok in H as [-> _]. cbn. auto.
    + intros H. inversion H; subst. cbn. auto.
  - intros H. inversion H; subst. cbn. auto.
Qed.

(** Five minutes after a start time: the same day and hour, minute 15. *)
Lemma add_five_minutes t :
  valid t = true -> minute t = 10 -> second t = 0 -> microsecond t = 0 ->
  Datetime.add t (timedelta_of 0 5) = Ok (set_minute 15 t).
Proof.
  intros Hv Hm Hs Hu. pose proof (valid_bounds t Hv) as Hb.
  unfold Datetime.add. cbv zeta.
  assert (Ht : time_of_day t + timedelta_of 0 5 = hour t * US_PER_HOUR + 15 * US_PER_MINUTE).
  { unfold time_of_day, timedelta_of. rewrite Hm, Hs, Hu.
    unfold US_PER_HOUR, US_PER_MINUTE, US_PER_SECOND. lia. }
  rewrite Ht.
  assert (Hsmall : 0 <= hour t * US_PER_HOUR + 15 * US_PER_MINUTE < US_PER_DAY)
    by (unfold US_PER_DAY, US_PER_HOUR, US_PER_MINUTE, US_PER_SECOND; lia).
  rewrite (Z.div_small _ _ Hsmall), (Z.mod_small _ _ Hsmall).
  change (add_days (Z.to_nat 0) t) with t.
  destruct (Z.leb_spec (year t) MAXYEAR) as [_|Hy]; [|unfold MAXYEAR in Hy; lia].
  f_equal. unfold set_minute. rewrite Hs, Hu.
  unfold US_PER_HOUR, US_PER_MINUTE, US_PER_SECOND in *.
  f_equal; Z.div_mod_to_equations; lia.
Qed.

(** The errors lines 58-82 can raise on a valid clock reading, for any
    interval. *)
Lemma start_datetime_errors now ih e :
  valid now = true ->
  start_datetime now ih = Raise e ->
  e = mk_exn ValueError "day is out of range for month"
  \/ e = mk_exn ZeroDivisionError "float floor division by zero".
Proof.
  intros Hv. unfold start_datetime, replace.
  pose proof (today_at_start_time_valid now Hv) as Hc.
  rewrite (datetime_new_valid _ Hc). cbn [rbind].
  destruct (leb _ now); [|discriminate].
  unfold hours_floordiv. destruct (ih =? 0); cbn [rbind].
  { intros H; inversion H; auto. }
  set (h := t_hour START_TIME + _).
  assert (Hm : 0 <= h mod 24 < 24) by (apply Z.mod_pos_bound; lia).
  assert (Hv' : valid (set_hour (h mod 24) (today_at_start_time now)) = true).
  { apply valid_bounds in Hc. apply valid_intro; simpl in *; lia. }
  rewrite (datetime_new_valid _ Hv'). cbn [rbind].
  destruct (24 <=? h); [|discriminate].
  unfold datetime_new.
  destruct (check_date_fields _ _ _).
  - unfold check_time_fields. cbn.
    destruct (Z.leb_spec 0 (h mod 24)); [|lia].
    destruct (Z.leb_spec (h mod 24) 23); [|lia]. cbn. discriminate.
  - intros H; inversion H; auto.
Qed.

(** The state a registration leaves when everything goes through. *)
Lemma add_spawn_schedule_success c s start :
  start_datetime (clock (clock_reads s)) (interval_hours c) = Ok start ->
  jobs (scheduler s) !! job_id c = None ->
  jobs (scheduler s) !! followup_job_id c = None ->
  job_id c <> followup_job_id c ->
  _add_spawn_schedule clock c s
  = (mk_state
       (mk_scheduler
          (<[followup_job_id c := followup_job c (set_minute 15 start)]>
             (<[job_id c := main_job c start]> (jobs (scheduler s))))
          (timing_loops (scheduler s)))
       (is_running s)
       ((log s ++ [(INFO, Scheduled (name c) (interval_hours c) start)])
          ++ [(INFO, ScheduledFollowup (name c) (interval_hours c) (set_minute 15 start))])
       (S (clock_reads s)) (calls s),
     Ok tt).
Proof.
  intros Hstart Hn1 Hn2 Hne.
  pose proof (start_datetime_valid _ _ _ Hstart) as Hv.
  destruct (start_datetime_minute _ _ _ Hstart) as (Hm & Hs & Hu).
  pose proof (add_five_minutes start Hv Hm Hs Hu) as Hadd.
  unfold _add_spawn_schedule, try_except, bind, lift, datetime_now. cbn [handle].
  rewrite Hstart, Hadd. unfold on_scheduler, add_job. cbn.
  rewrite Hn1. cbn. rewrite lookup_insert_ne by exact Hne. rewrite Hn2. cbn.
  reflexivity.
Qed.

End RegistrationMore.

Section SetupMore.

Import Manager.

Variable clock : nat -> datetime.

Lemma for_each_success configs s :
  NoDup (all_ids configs) ->
  (forall i, i ∈ all_ids configs -> jobs (scheduler s) !! i = None) ->
  (forall n c, configs !! n = Some c ->
     exists t, start_datetime (clock (clock_reads s + n)%nat) (interval_hours c) = Ok t) ->
  exists s',
    for_each configs (_add_spawn_schedule clock) s = (s', Ok tt)
    /\ (forall i, is_Some (jobs (scheduler s') !! i)
                  <-> is_Some (jobs (scheduler s) !! i) \/ i ∈ all_ids configs)
    /\ size (jobs (scheduler s')) = (size (jobs (scheduler s)) + 2 * length configs)%nat
    /\ is_running s' = is_running s
    /\ timing_loops (scheduler s') = timing_loops (scheduler s)
    /\ clock_reads s' = (clock_reads s + length configs)%nat
    /\ calls s' = calls s.
Proof.
  revert s. induction configs as [|c configs IH]; intros s Hnd Hfresh Hclock.
  - exists s. cbn. split; [reflexivity|].
    split; [intros i; split; [auto | intros [?|Hi]; [assumption | inversion Hi]]|].
    repeat split; lia.
  - cbn [all_ids flat_map config_ids app] in Hnd, Hfresh. fold (all_ids configs) in Hnd, Hfresh.
    apply NoDup_cons in Hnd as [Hj Hnd]. apply NoDup_cons in Hnd as [Hf Hnd].
    assert (Hne : job_id c <> followup_job_id c).
    { intros Heq. apply Hj. rewrite Heq. apply elem_of_cons. auto. }
    destruct (Hclock 0%nat c eq_refl) as [start Hstart].
    replace (clock_reads s + 0)%nat with (clock_reads s) in Hstart by lia.
    pose proof (add_spawn_schedule_success clock c s start Hstart
                  (Hfresh _ ltac:(apply elem_of_cons; auto))
                  (Hfresh _ ltac:(apply elem_of_cons; right; apply elem_of_cons; auto))
                  Hne) as Hrun.
    set (s1 := mk_state _ _ _ _ _) in Hrun.
    destruct (IH s1 Hnd) as (s' & Hrest & Hdom & Hsize & Hr & Hl & Hc & Hcalls).
    + intros i Hi. cbn.
      rewrite lookup_insert_ne by (intros <-; contradiction).
      rewrite lookup_insert_ne
        by (intros <-; apply Hj; apply elem_of_cons; auto).
      apply Hfresh. apply elem_of_cons; right; apply elem_of_cons; auto.
    + intros n c' Hn. destruct (Hclock (S n) c' Hn) as [t Ht]. exists t.
      subst s1. cbn [clock_reads].
      replace (S (clock_reads s) + n)%nat with (clock_reads s + S n)%nat by lia.
      exact Ht.
    + exists s'. cbn [for_each]. unfold bind. rewrite Hrun.
      split; [exact Hrest|].
      split.
      { intros i. rewrite Hdom. cbn.
        cbn [all_ids flat_map config_ids app]. fold (all_ids configs).
        rewrite !elem_of_cons.
        destruct (decide (followup_job_id c = i)) as [<-|Hnf].
        - rewrite lookup_insert_eq. split; [auto | eauto].
        - rewrite lookup_insert_ne by exact Hnf.
          destruct (decide (job_id c = i)) as [<-|Hnj].
          + rewrite lookup_insert_eq. split; [auto | eauto].
          + rewrite lookup_insert_ne by exact Hnj.
            split; [intros [?|?]; auto | intros [?|[?|[?|?]]]; auto; congruence]. }
      split.
      { rewrite Hsize. cbn.
        rewrite map_size_insert_None.
        - rewrite map_size_insert_None
            by (apply Hfresh; apply elem_of_cons; auto).
          lia.
        - rewrite lookup_insert_ne by exact Hne.
          apply Hfresh. apply elem_of_cons; right; apply elem_of_cons; auto. }
      cbn in Hr, Hl, Hc, Hcalls. repeat split; try assumption. cbn. lia.
Qed.

(** X4: when the ids of the configs are pairwise distinct and none is
    registered yet, every interval is one an interval trigger can hold
    (between 0 and [MAX_INTERVAL_HOURS]), and the start time computation
    returns for the clock reading taken for each config, [setup_schedules]
    returns normally, having
    read the clock once per config and stored exactly two jobs per config
    under the configs' ids, beside the jobs stored before; the running flag
    is untouched. *)
Theorem X4_setup_registers_two_jobs_per_config configs s :
  NoDup (all_ids configs) ->
  (forall i, i ∈ all_ids configs -> jobs (scheduler s) !! i = None) ->
  (forall c, c ∈ configs -> 0 <= interval_hours c <= MAX_INTERVAL_HOURS) ->
  (forall n c, configs !! n = Some c ->
     exists t, start_datetime (clock (clock_reads s + n)%nat) (interval_hours c) = Ok t) ->
  exists s',
    setup_schedules clock configs s = (s', Ok tt)
    /\ (forall i, is_Some (jobs (scheduler s') !! i)
                  <-> is_Some (jobs (scheduler s) !! i) \/ i ∈ all_ids configs)
    /\ size (jobs (scheduler s')) = (size (jobs (scheduler s)) + 2 * length configs)%nat
    /\ is_running s' = is_running s
    /\ clock_reads s' = (clock_reads s + length configs)%nat.
Proof.
  intros Hnd Hfresh _ Hclock.
  unfold setup_schedules, try_except. unfold bind at 1. cbn [logger].
  set (s0 := mk_state _ _ _ _ _).
  destruct (for_each_success configs s0 Hnd Hfresh Hclock)
    as (s1 & Hrun & Hdom & Hsize & Hr & _ & Hc & _).
  unfold bind. rewrite Hrun. cbn.
  eexists. split; [reflexivity|]. cbn. auto.
Qed.

End SetupMore.

Lemma X4_setup_registers_two_jobs_per_config_witness :
  exists s',
    Manager.setup_schedules morning_clock SPAWN_CONFIGS Manager.init = (s', Ok tt)
    /\ size (jobs (Manager.scheduler s')) = 6%nat.
Proof.
  destruct (X4_setup_registers_two_jobs_per_config morning_clock SPAWN_CONFIGS Manager.init)
    as (s' & Hrun & _ & Hsize & _).
  - apply (@bool_decide_unpack _ (NoDup_dec (all_ids SPAWN_CONFIGS))). vm_compute. exact I.
  - intros i _. apply lookup_empty.
  - intros c Hc. unfold SPAWN_CONFIGS in Hc.
    repeat (apply elem_of_cons in Hc as [->|Hc]); [| | |inversion Hc];
      vm_compute; split; discriminate.
  - intros n c Hc.
    exists (today_at_start_time (mk_datetime 2025 6 15 9 0 0 0)).
    unfold morning_clock. destruct n as [|[|[|n]]]; cbn in Hc; inversion Hc; subst;
      vm_compute; reflexivity.
  - exists s'. split; [exact Hrun | exact Hsize].
Defined.

Section SetupFailures.

Import Manager.

Variable clock : nat -> datetime.

(** A config with a zero interval whose clock reading is at or after today's
    [START_TIME] makes the loop of [setup_schedules] raise, at that config or
    before it. *)
Lemma for_each_zero_interval configs s n c :
  configs !! n = Some c ->
  interval_hours c = 0 ->
  valid (clock (clock_reads s + n)%nat) = true ->
  time_of_day (today_at_start_time (clock (clock_reads s + n)%nat))
    <= time_of_day (clock (clock_reads s + n)%nat) ->
  exists s' e, for_each configs (_add_spawn_schedule clock) s = (s', Raise e).
Proof.
  revert s n. induction configs as [|c0 configs IH]; intros s n Hn Hih Hv Hpast.
  - destruct n; discriminate Hn.
  - cbn [for_each]. unfold bind.
    destruct (_add_spawn_schedule clock c0 s) as [s1 [[]|e1]] eqn:Hc0; [|eauto].
    destruct n as [|n].
    + cbn in Hn. inversion Hn; subst c0.
      apply add_spawn_schedule_Ok in Hc0 as (start & _ & Hstart & _).
      replace (clock_reads s + 0)%nat with (clock_reads s) in * by lia.
      rewrite Hih, (start_datetime_zero_interval _ Hv Hpast) in Hstart. discriminate.
    + apply add_spawn_schedule_frame in Hc0 as (_ & _ & Hreads & _).
      apply (IH s1 n Hn Hih); rewrite Hreads;
        replace (S (clock_reads s) + n)%nat with (clock_reads s + S n)%nat by lia;
        assumption.
Qed.

(** C7, amended: [setup_schedules] ends by raising when an id of the configs
    is already registered or occurs twice among them, and when a config has
    a zero interval and the clock reading taken for it is at or after
    today's [START_TIME]. The exception is the one raised by the
    registration of one config, reached after the configs before it were
    registered and with none after it attempted; the clock has been read at
    most once per config, and the manager is still not running. A zero
    interval is not rejected while today's [START_TIME] is ahead: the config
    is then registered, both jobs with a trigger built from zero hours. *)
Theorem C7_setup_fails_on_collision_or_due_zero_interval configs s :
  (id_collision s configs
   \/ (exists n c,
         configs !! n = Some c /\ interval_hours c = 0
         /\ valid (clock (clock_reads s + n)%nat) = true
         /\ time_of_day (today_at_start_time (clock (clock_reads s + n)%nat))
              <= time_of_day (clock (clock_reads s + n)%nat)) ->
   exists s' e,
     setup_schedules clock configs s = (s', Raise e)
     /\ (exists pre c post s1 s2,
           configs = (pre ++ c :: post)%list
           /\ for_each pre (_add_spawn_schedule clock)
                (fst (logger INFO SettingUpSchedules s)) = (s1, Ok tt)
           /\ _add_spawn_schedule clock c s1 = (s2, Raise e))
     /\ is_running s' = is_running s
     /\ timing_loops (scheduler s') = timing_loops (scheduler s)
     /\ (clock_reads s' <= clock_reads s + length configs)%nat)
  /\ (forall c,
        interval_hours c = 0 ->
        valid (clock (clock_reads s)) = true ->
        time_of_day (clock (clock_reads s))
          < time_of_day (today_at_start_time (clock (clock_reads s))) ->
        jobs (scheduler s) !! job_id c = None ->
        jobs (scheduler s) !! followup_job_id c = None ->
        job_id c <> followup_job_id c ->
        exists s',
          _add_spawn_schedule clock c s = (s', Ok tt)
          /\ trigger_hours <$> (trigger <$> jobs (scheduler s') !! job_id c) = Some 0
          /\ trigger_hours <$> (trigger <$> jobs (scheduler s') !! followup_job_id c)
             = Some 0).
Proof.
  split.
  - intros Hfail. unfold setup_schedules, try_except.
    unfold bind at 1. cbn [logger].
    set (s0 := Manager.mk_state _ _ _ _ _).
    assert (Hraise : exists s1 e,
              for_each configs (_add_spawn_schedule clock) s0 = (s1, Raise e)).
    { destruct Hfail as [Hcol | (n & c & Hn & Hih & Hv & Hpast)].
      - exact (for_each_collision clock configs s0 Hcol).
      - exact (for_each_zero_interval configs s0 n c Hn Hih Hv Hpast). }
    destruct Hraise as (s1 & e & Hrun).
    pose proof (for_each_frame clock configs s0 s1 _ Hrun) as (Hr & Hl & Hc & _).
    pose proof (for_each_Raise _ _ _ _ _ Hrun)
      as (pre & c & post & s2 & Hsplit & Hpre & Hfailc).
    unfold bind at 1. rewrite Hrun. cbn [handle].
    destruct (isinstance e Exception).
    + eexists _, e. split; [reflexivity|]. cbn.
      split; [exists pre, c, post, s2, s1; auto|]. auto.
    + exists s1, e. split; [reflexivity|].
      split; [exists pre, c, post, s2, s1; auto|]. auto.
  - intros c Hih Hv Hlt Hn1 Hn2 Hne.
    pose proof (start_datetime_before_start_time _ (interval_hours c) Hv Hlt) as Hstart.
    rewrite (add_spawn_schedule_success clock c s _ Hstart Hn1 Hn2 Hne).
    eexists. split; [reflexivity|]. cbn.
    rewrite lookup_insert_ne by congruence. rewrite !lookup_insert_eq. cbn.
    rewrite Hih. auto.
Qed.

End SetupFailures.

Lemma C7_setup_fails_on_collision_or_due_zero_interval_witness :
  (exists s' e,
     Manager.setup_schedules morning_clock
       [mk_config "A" "m" "f" 2 "a_spawn" "a_followup";
        mk_config "B" "m" "f" 3 "a_spawn" "b_followup"] Manager.init = (s', Raise e)
     /\ Manager.is_running s' = false)
  /\ (exists s' e,
        Manager.setup_schedules (fun _ => mk_datetime 2025 6 15 13 0 0 0)
          [zero_interval_config] Manager.init = (s', Raise e)
        /\ Manager.is_running s' = false)
  /\ (exists s',
        Manager._add_spawn_schedule morning_clock zero_interval_config Manager.init
        = (s', Ok tt)).
Proof.
  split; [|split].
  - destruct (proj1 (C7_setup_fails_on_collision_or_due_zero_interval morning_clock
                       [mk_config "A" "m" "f" 2 "a_spawn" "a_followup";
                        mk_config "B" "m" "f" 3 "a_spawn" "b_followup"] Manager.init))
      as (s' & e & Hrun & _ & Hr & _).
    + left. right. vm_compute. intros H.
      apply NoDup_cons in H as [Hnin _]. apply Hnin. set_solver.
    + exists s', e. split; [exact Hrun | exact Hr].
  - destruct (proj1 (C7_setup_fails_on_collision_or_due_zero_interval
                       (fun _ => mk_datetime 2025 6 15 13 0 0 0)
                       [zero_interval_config] Manager.init))
      as (s' & e & Hrun & _ & Hr & _).
    + right. exists 0%nat, zero_interval_config.
      split; [reflexivity|]. split; [reflexivity|]. split; [reflexivity|].
      vm_compute. discriminate.
    + exists s', e. split; [exact Hrun | exact Hr].
  - destruct (proj2 (C7_setup_fails_on_collision_or_due_zero_interval morning_clock
                       [] Manager.init) zero_interval_config)
      as (s' & Hrun & _).
    + reflexivity.
    + reflexivity.
    + vm_compute. reflexivity.
    + apply lookup_empty.
    + apply lookup_empty.
    + discriminate.
    + exists s'. exact Hrun.
Defined.

Section RegistrationErrors.

Import Manager.

Variable clock : nat -> datetime.

(** The constructor raises nothing but [ValueError]. *)
Lemma datetime_new_raises d e :
  datetime_new d = Raise e -> exn_cls e = ValueError.
Proof.
  unfold datetime_new.
  destruct (check_date_fields _ _ _); [destruct (check_time_fields _ _ _ _)|];
    intros H; inversion H; reflexivity.
Qed.

(** X5: on a valid clock reading, with two distinct ids that are not
    registered yet and an interval between 0 and [MAX_INTERVAL_HOURS],
    [_add_spawn_schedule] fails exactly when the start time computation of
    lines 58-82 does, and with its error: the [ValueError] of the date
    rollover or the [ZeroDivisionError] of a zero interval. The failure is
    logged once with the config's name and raised again; the clock has been
    read once and no job has been stored. *)
Theorem X5_registration_errors c s :
  valid (clock (clock_reads s)) = true ->
  0 <= interval_hours c <= MAX_INTERVAL_HOURS ->
  jobs (scheduler s) !! job_id c = None ->
  jobs (scheduler s) !! followup_job_id c = None ->
  job_id c <> followup_job_id c ->
  (forall s' e,
     _add_spawn_schedule clock c s = (s', Raise e) ->
     start_datetime (clock (clock_reads s)) (interval_hours c) = Raise e
     /\ (e = mk_exn ValueError "day is out of range for month"
         \/ (e = mk_exn ZeroDivisionError "float floor division by zero"
             /\ interval_hours c = 0)))
  /\ (forall e,
        start_datetime (clock (clock_reads s)) (interval_hours c) = Raise e ->
        _add_spawn_schedule clock c s
        = (mk_state (scheduler s) (is_running s)
             (log s ++ [(ERROR, FailedAddSchedule (name c) e)])
             (S (clock_reads s)) (calls s),
           Raise e)).
Proof.
  intros Hv Hih Hn1 Hn2 Hne.
  assert (Hfail : forall e,
            start_datetime (clock (clock_reads s)) (interval_hours c) = Raise e ->
            _add_spawn_schedule clock c s
            = (mk_state (scheduler s) (is_running s)
                 (log s ++ [(ERROR, FailedAddSchedule (name c) e)])
                 (S (clock_reads s)) (calls s),
               Raise e)).
  { intros e He.
    unfold _add_spawn_schedule, try_except, bind, lift, datetime_now. cbn [handle].
    rewrite He.
    destruct (start_datetime_errors _ _ _ Hv He) as [-> | ->]; reflexivity. }
  split; [|exact Hfail].
  intros s' e Hrun.
  destruct (start_datetime (clock (clock_reads s)) (interval_hours c))
    as [start|e0] eqn:Hstart.
  - rewrite (add_spawn_schedule_success clock c s start Hstart Hn1 Hn2 Hne) in Hrun.
    discriminate.
  - rewrite (Hfail e0 eq_refl) in Hrun. inversion Hrun; subst e0.
    split; [reflexivity|].
    destruct (start_datetime_errors _ _ _ Hv Hstart) as [-> | ->]; [auto|].
    right. split; [reflexivity|].
    destruct (Z.eq_dec (interval_hours c) 0) as [Hz|Hnz]; [exact Hz|].
    exfalso. revert Hstart. unfold start_datetime, replace.
    rewrite (datetime_new_valid _ (today_at_start_time_valid _ Hv)). cbn [rbind].
    destruct (leb _ _); [|discriminate].
    unfold hours_floordiv.
    destruct (Z.eqb_spec (interval_hours c) 0); [contradiction|]. cbn [rbind].
    destruct (datetime_new _) as [d|e1] eqn:Hd; cbn [rbind].
    + destruct (24 <=? _); [|discriminate].
      intros H. apply datetime_new_raises in H. discriminate H.
    + intros H. inversion H; subst e1.
      apply datetime_new_raises in Hd. discriminate Hd.
Qed.

End RegistrationErrors.

Lemma X5_registration_errors_witness :
  Manager._add_spawn_schedule (fun _ => mk_datetime 2025 1 31 22 30 0 0)
    (mk_config "Temintia" "m" "f" 2 "t_spawn" "t_followup") Manager.init
  = (Manager.mk_state new_scheduler false
       [(ERROR, FailedAddSchedule "Temintia"
                  (mk_exn ValueError "day is out of range for month"))] 1 [],
     Raise (mk_exn ValueError "day is out of range for month")).
Proof.
  apply (proj2 (X5_registration_errors (fun _ => mk_datetime 2025 1 31 22 30 0 0)
                  (mk_config "Temintia" "m" "f" 2 "t_spawn" "t_followup") Manager.init
                  eq_refl ltac:(vm_compute; split; discriminate)
                  (lookup_empty _) (lookup_empty _) ltac:(discriminate))).
  vm_compute. reflexivity.
Defined.

(** ** Notification and start, continued *)

Section NotificationMore.

Import Manager.

Variable message_callback : nat -> string -> result unit.

(** X7: whatever the callback does, [_send_spawn_notification] awaits it
    exactly once, with the message it was given, and touches neither the
    scheduler nor the running flag nor the clock; it returns normally unless
    the callback raised something that is not an [Exception] (such as the
    cancellation of the task), which then passes through unchanged. *)
Theorem X7_notification_calls_callback_once message spawn_name s :
  calls (fst (_send_spawn_notification message_callback message spawn_name s))
  = (calls s ++ [message])%list
  /\ scheduler (fst (_send_spawn_notification message_callback message spawn_name s))
     = scheduler s
  /\ is_running (fst (_send_spawn_notification message_callback message spawn_name s))
     = is_running s
  /\ clock_reads (fst (_send_spawn_notification message_callback message spawn_name s))
     = clock_reads s
  /\ (snd (_send_spawn_notification message_callback message spawn_name s) = Ok tt
      \/ exists e,
           message_callback (length (calls s)) message = Raise e
           /\ isinstance e Exception = false
           /\ snd (_send_spawn_notification message_callback message spawn_name s)
              = Raise e).
Proof.
  unfold _send_spawn_notification, try_except, bind, await_message_callback, logger.
  cbn. destruct (message_callback (length (calls s)) message) as [[]|e] eqn:Hcb; cbn.
  - auto 6.
  - destruct (isinstance e Exception) eqn:He; cbn.
    + auto 6.
    + repeat split; auto. right. exists e. auto.
Qed.

End NotificationMore.

Section StartMore.

Import Manager.

Lemma for_each_log_jobs_exact (l : list Job) s :
  for_each l (fun job =>
    match next_run_time job with
    | Some next_run => logger INFO (NextRun (job_name job) next_run)
    | None => logger WARNING (NoNextRun (job_name job))
    end) s
  = (mk_state (scheduler s) (is_running s) (log s ++ map next_run_record l)
       (clock_reads s) (calls s), Ok tt).
Proof.
  revert s. induction l as [|job l IH]; intros s; cbn.
  - unfold ret. rewrite app_nil_r. destruct s; reflexivity.
  - unfold bind, next_run_record at 1.
    destruct (next_run_time job); cbn; rewrite IH; cbn; rewrite <- app_assoc; reflexivity.
Qed.

(** X9: [start] on a manager that is not running starts the scheduler, sets
    the running flag, and logs the start, a header and one record per
    registered job with its next run time; the jobs are left as they are and
    the method returns normally. *)
Theorem X9_start_logs_next_run_of_every_job s :
  is_running s = false ->
  start s
  = (mk_state (mk_scheduler (jobs (scheduler s)) (S (timing_loops (scheduler s)))) true
       (log s ++ [(INFO, SchedulerStarted); (INFO, NextScheduledHeader)]
          ++ map next_run_record (get_jobs (scheduler s)))
       (clock_reads s) (calls s),
     Ok tt).
Proof.
  intros Hr. unfold start, try_except, bind, get_is_running. rewrite Hr. cbn.
  unfold _log_next_run_times, try_except, bind. cbn [logger].
  rewrite for_each_log_jobs_exact. cbn.
  rewrite <- !app_assoc. reflexivity.
Qed.

End StartMore.

Lemma X9_start_logs_next_run_of_every_job_witness :
  exists s',
    Manager.start
      (fst (Manager.setup_schedules morning_clock SPAWN_CONFIGS Manager.init))
    = (s', Ok tt)
    /\ Manager.is_running s' = true
    /\ size (jobs (Manager.scheduler s')) = 6%nat
    /\ In (INFO, NextRun "Pustietate Spawn Notification"
                   (to_micros (mk_datetime 2025 6 15 12 10 0 0))) (Manager.log s')
    /\ In (INFO, NextRun "Pustietate Followup Notification"
                   (to_micros (mk_datetime 2025 6 15 12 15 0 0))) (Manager.log s').
Proof.
  eexists. split.
  - apply (X9_start_logs_next_run_of_every_job
             (fst (Manager.setup_schedules morning_clock SPAWN_CONFIGS Manager.init))).
    vm_compute. reflexivity.
  - vm_compute. repeat split; auto 20.
Defined.


(** ** The status of the manager *)

Section StatusFacts.

Variable isoformat : Z -> string.
Variable getattr_next_run_time : Scheduler -> Job -> result (option Z).

Lemma elem_of_get_jobs sch j :
  j ∈ get_jobs sch <-> exists k, jobs sch !! k = Some j.
Proof.
  unfold get_jobs. rewrite list_elem_of_fmap. split.
  - intros ([k j'] & -> & Hkj). apply elem_of_map_to_list in Hkj. eauto.
  - intros (k & Hk). exists (k, j). split; [reflexivity | apply elem_of_map_to_list, Hk].
Qed.

Lemma length_get_jobs sch : length (get_jobs sch) = size (jobs sch).
Proof. unfold get_jobs. rewrite length_fmap, length_map_to_list. reflexivity. Qed.

(** The loop of [get_status] when every read returns. *)
Lemma append_job_infos_Ok sch l acc :
  (forall j, j ∈ l -> exists v, getattr_next_run_time sch j = Ok v) ->
  exists js,
    Status.append_job_infos isoformat getattr_next_run_time sch l acc = Ok (acc ++ js)%list
    /\ length js = length l
    /\ forall info,
         info ∈ js
         <-> exists j v,
               j ∈ l /\ getattr_next_run_time sch j = Ok v
               /\ info = Status.mk_job_info (id j) (job_name j) (isoformat <$> v).
Proof.
  revert acc. induction l as [|job l IH]; intros acc Hall.
  - exists []. cbn. rewrite app_nil_r. split; [reflexivity|]. split; [reflexivity|].
    intros info. split; [intros H; inversion H|].
    intros (j & v & Hj & _). inversion Hj.
  - destruct (Hall job ltac:(apply elem_of_cons; auto)) as [v Hv].
    destruct (IH (acc ++ [Status.mk_job_info (id job) (job_name job) (isoformat <$> v)])%list)
      as (js & Hrun & Hlen & Hjs).
    { intros j Hj. apply Hall. apply elem_of_cons. auto. }
    exists (Status.mk_job_info (id job) (job_name job) (isoformat <$> v) :: js).
    cbn [Status.append_job_infos]. rewrite Hv, Hrun, <- app_assoc.
    split; [reflexivity|]. split; [cbn; lia|].
    intros info. rewrite elem_of_cons, Hjs. split.
    + intros [-> | (j & v' & Hj & Hv' & ->)].
      * exists job, v. split; [apply elem_of_cons; auto | auto].
      * exists j, v'. split; [apply elem_of_cons; auto | auto].
    + intros (j & v' & Hj & Hv' & ->). apply elem_of_cons in Hj as [-> | Hj].
      * left. congruence.
      * right. eauto.
Qed.

(** The loop of [get_status] when a read raises: the first such read ends it. *)
Lemma append_job_infos_Raise sch l acc :
  (exists j e, j ∈ l /\ getattr_next_run_time sch j = Raise e) ->
  exists j e,
    j ∈ l /\ getattr_next_run_time sch j = Raise e
    /\ Status.append_job_infos isoformat getattr_next_run_time sch l acc = Raise e.
Proof.
  revert acc. induction l as [|job l IH]; intros acc (j & e & Hj & He).
  - inversion Hj.
  - cbn [Status.append_job_infos].
    destruct (getattr_next_run_time sch job) as [v|e0] eqn:Hjob.
    + apply elem_of_cons in Hj as [-> | Hj]; [congruence|].
      destruct (IH (acc ++ [Status.mk_job_info (id job) (job_name job) (isoformat <$> v)])%list)
        as (j' & e' & Hj' & He' & Hrun); [eauto|].
      exists j', e'. split; [apply elem_of_cons; auto | auto].
    + exists job, e0. split; [apply elem_of_cons; auto | auto].
Qed.

(** What [get_status] returns and leaves when every read returns. *)
Lemma get_status_Ok self lg :
  (forall k j, jobs (Manager.scheduler self) !! k = Some j ->
     exists v, getattr_next_run_time (Manager.scheduler self) j = Ok v) ->
  exists js,
    Status.get_status isoformat getattr_next_run_time self lg
    = (lg, Ok (Status.StatusDict (Manager.is_running self)
                 (size (jobs (Manager.scheduler self))) js))
    /\ length js = size (jobs (Manager.scheduler self))
    /\ forall info,
         info ∈ js
         <-> exists k j v,
               jobs (Manager.scheduler self) !! k = Some j
               /\ getattr_next_run_time (Manager.scheduler self) j = Ok v
               /\ info = Status.mk_job_info (id j) (job_name j) (isoformat <$> v).
Proof.
  intros Hall.
  destruct (append_job_infos_Ok (Manager.scheduler self)
              (get_jobs (Manager.scheduler self)) [])
    as (js & Hrun & Hlen & Hjs).
  { intros j Hj. apply elem_of_get_jobs in Hj as [k Hk]. eauto. }
  exists js. unfold Status.get_status, try_except, bind, lift, ret.
  rewrite Hrun, length_get_jobs. cbn.
  split; [reflexivity|]. split; [rewrite Hlen; apply length_get_jobs|].
  intros info. rewrite Hjs. split.
  - intros (j & v & Hj & Hv & ->). apply elem_of_get_jobs in Hj as [k Hk]. eauto 6.
  - intros (k & j & v & Hk & Hv & ->). exists j, v.
    split; [apply elem_of_get_jobs; eauto | auto].
Qed.

(** What [get_status] returns and leaves when a read raises. *)
Lemma get_status_Raise self lg :
  (exists k j e, jobs (Manager.scheduler self) !! k = Some j
                 /\ getattr_next_run_time (Manager.scheduler self) j = Raise e) ->
  exists k j e,
    jobs (Manager.scheduler self) !! k = Some j
    /\ getattr_next_run_time (Manager.scheduler self) j = Raise e
    /\ Status.get_status isoformat getattr_next_run_time self lg
       = if isinstance e Exception
         then ((lg ++ [(ERROR, Status.ErrorGettingStatus e)])%list,
               Ok (Status.ErrorDict (exn_msg e)))
         else (lg, Raise e).
Proof.
  intros (k & j & e & Hk & He).
  destruct (append_job_infos_Raise (Manager.scheduler self)
              (get_jobs (Manager.scheduler self)) [])
    as (j' & e' & Hj' & He' & Hrun).
  { exists j, e. split; [apply elem_of_get_jobs; eauto | exact He]. }
  apply elem_of_get_jobs in Hj' as [k' Hk'].
  exists k', j', e'. split; [exact Hk'|]. split; [exact He'|].
  unfold Status.get_status, try_except, bind, lift. rewrite Hrun. cbn.
  destruct (isinstance e' Exception); reflexivity.
Qed.

(** X10: [get_status] lets no [Exception] out. When the next run time of
    every stored job can be read, it writes no log record and reports the
    manager's running flag, a job count equal to the number of jobs in the
    store, and a jobs list of that length that holds exactly the id, name
    and rendered next run time of every stored job. When the read fails for
    some stored job, nothing of that is reported: the error of the first
    failing read is logged once and the dict returned holds only its text
    (anything that is not an [Exception] passes through instead). *)
Theorem X10_get_status_reports_or_logs self lg :
  ((forall k j, jobs (Manager.scheduler self) !! k = Some j ->
      exists v, getattr_next_run_time (Manager.scheduler self) j = Ok v) ->
   exists js,
     Status.get_status isoformat getattr_next_run_time self lg
     = (lg, Ok (Status.StatusDict (Manager.is_running self)
                  (size (jobs (Manager.scheduler self))) js))
     /\ length js = size (jobs (Manager.scheduler self))
     /\ forall info,
          info ∈ js
          <-> exists k j v,
                jobs (Manager.scheduler self) !! k = Some j
                /\ getattr_next_run_time (Manager.scheduler self) j = Ok v
                /\ info = Status.mk_job_info (id j) (job_name j) (isoformat <$> v))
  /\ ((exists k j e, jobs (Manager.scheduler self) !! k = Some j
                     /\ getattr_next_run_time (Manager.scheduler self) j = Raise e) ->
      exists k j e,
        jobs (Manager.scheduler self) !! k = Some j
        /\ getattr_next_run_time (Manager.scheduler self) j = Raise e
        /\ Status.get_status isoformat getattr_next_run_time self lg
           = if isinstance e Exception
             then ((lg ++ [(ERROR, Status.ErrorGettingStatus e)])%list,
                   Ok (Status.ErrorDict (exn_msg e)))
             else (lg, Raise e))
  /\ (forall e, snd (Status.get_status isoformat getattr_next_run_time self lg) = Raise e ->
        isinstance e Exception = false).
Proof.
  split; [exact (get_status_Ok self lg)|]. split; [exact (get_status_Raise self lg)|].
  intros e. unfold Status.get_status, try_except, bind, lift.
  destruct (Status.append_job_infos _ _ _ _ _) as [js|e0]; cbn; [discriminate|].
  destruct (isinstance e0 Exception) eqn:He0; cbn; [discriminate|].
  intros H. inversion H; subst. exact He0.
Qed.

End StatusFacts.

Lemma X10_get_status_reports_or_logs_witness :
  (exists js,
     Status.get_status (fun _ => "") stored_next_run_time
       (fst (Manager.setup_schedules morning_clock SPAWN_CONFIGS Manager.init)) []
     = ([], Ok (Status.StatusDict false 6 js))
     /\ length js = 6%nat)
  /\ (exists e,
        Status.get_status (fun _ => "") unset_next_run_time
          (fst (Manager.setup_schedules morning_clock SPAWN_CONFIGS Manager.init)) []
        = ([(ERROR, Status.ErrorGettingStatus e)], Ok (Status.ErrorDict (exn_msg e)))
        /\ exn_cls e = AttributeError).
Proof.
  split.
  - destruct (proj1 (X10_get_status_reports_or_logs (fun _ => "") stored_next_run_time
                       (fst (Manager.setup_schedules morning_clock SPAWN_CONFIGS
                               Manager.init)) []))
      as (js & Hrun & Hlen & _).
    + intros k j _. exists (next_run_time j). reflexivity.
    + exists js. split; [exact Hrun | exact Hlen].
  - destruct (proj1 (proj2 (X10_get_status_reports_or_logs (fun _ => "")
                              unset_next_run_time
                              (fst (Manager.setup_schedules morning_clock SPAWN_CONFIGS
                                      Manager.init)) [])))
      as (k & j & e & _ & He & Hrun).
    + exists "temintia_spawn",
        (main_job (mk_config "Temintia Misterioasa V5"
                     "Sefii din Temintia Misterioasa V5 apar in 5 min !!!"
                     "Sefii din Temnita Misterioasa V5 au aparut !!!"
                     2 "temintia_spawn" "temintia_followup")
           (mk_datetime 2025 6 15 12 10 0 0)),
        (mk_exn AttributeError "next_run_time").
      split; [vm_compute; reflexivity | reflexivity].
    + inversion He; subst e. exists (mk_exn AttributeError "next_run_time").
      split; [exact Hrun | reflexivity].
Defined.

(** ** The target channel *)

Section TargetChannel.

Import Client.

Lemma find_in_channels_None channels :
  find_in_channels channels = None
  <-> forall c, c ∈ channels -> Bot.channel_name c <> CHANNEL_NAME.
Proof.
  induction channels as [|c rest IH]; cbn.
  - split; [intros _ c Hc; inversion Hc | reflexivity].
  - destruct (String.eqb_spec (Bot.channel_name c) CHANNEL_NAME) as [Heq|Hne].
    + split; [discriminate|]. intros H. destruct (H c); [apply elem_of_cons; auto | exact Heq].
    + rewrite IH. split.
      * intros H c' Hc'. apply elem_of_cons in Hc' as [->|Hc']; auto.
      * intros H c' Hc'. apply H, elem_of_cons; auto.
Qed.

Lemma find_in_channels_first pre c post :
  Bot.channel_name c = CHANNEL_NAME ->
  (forall c', c' ∈ pre -> Bot.channel_name c' <> CHANNEL_NAME) ->
  find_in_channels (pre ++ c :: post) = Some c.
Proof.
  intros Hc. induction pre as [|c0 pre IH]; intros Hpre; cbn.
  - apply String.eqb_eq in Hc. rewrite Hc. reflexivity.
  - destruct (String.eqb_spec (Bot.channel_name c0) CHANNEL_NAME) as [Heq|_].
    + destruct (Hpre c0); [apply elem_of_cons; auto | exact Heq].
    + apply IH. intros c' Hc'. apply Hpre, elem_of_cons; auto.
Qed.

Lemma find_in_channels_app l1 l2 :
  find_in_channels (l1 ++ l2)
  = match find_in_channels l1 with
    | Some c => Some c
    | None => find_in_channels l2
    end.
Proof.
  induction l1 as [|c l1 IH]; cbn; [reflexivity|].
  destruct (String.eqb _ _); [reflexivity | exact IH].
Qed.

(** The nested loops visit the channels guild by guild. *)
Lemma find_in_guilds_flat guilds :
  find_in_guilds guilds = find_in_channels (flat_map text_channels guilds).
Proof.
  induction guilds as [|g rest IH]; cbn; [reflexivity|].
  rewrite find_in_channels_app, IH. reflexivity.
Qed.

Lemma find_in_channels_Some channels c :
  find_in_channels channels = Some c ->
  c ∈ channels /\ Bot.channel_name c = CHANNEL_NAME.
Proof.
  induction channels as [|c0 rest IH]; cbn; [discriminate|].
  destruct (String.eqb_spec (Bot.channel_name c0) CHANNEL_NAME) as [Heq|_].
  - intros H; inversion H; subst. split; [apply elem_of_cons; auto | exact Heq].
  - intros H. destruct (IH H). split; [apply elem_of_cons; auto | assumption].
Qed.

(** X11: [find_target_channel] goes through the text channels guild by guild
    and sets the target to the first channel named [CHANNEL_NAME], writing
    no log record; when no channel has that name it logs a warning and
    leaves the target as it was, so an earlier target is kept. In both
    cases it returns normally. *)
Theorem X11_find_target_channel_takes_first_match guilds s :
  (forall pre c post,
     flat_map text_channels guilds = (pre ++ c :: post)%list ->
     Bot.channel_name c = CHANNEL_NAME ->
     (forall c', c' ∈ pre -> Bot.channel_name c' <> CHANNEL_NAME) ->
     find_target_channel guilds s
     = (mk_state (spawn_scheduler s) (Some c) (log s) (scheduler_log s)
          (sent s) (send_calls s) (close_calls s), Ok tt))
  /\ ((forall c, c ∈ flat_map text_channels guilds -> Bot.channel_name c <> CHANNEL_NAME) ->
      find_target_channel guilds s
      = (mk_state (spawn_scheduler s) (target_channel s)
           (log s ++ [(WARNING, ChannelNotFound CHANNEL_NAME)]) (scheduler_log s)
           (sent s) (send_calls s) (close_calls s), Ok tt)).
Proof.
  unfold find_target_channel, try_except. rewrite find_in_guilds_flat. split.
  - intros pre c post Hflat Hc Hpre. rewrite Hflat.
    rewrite (find_in_channels_first pre c post Hc Hpre). reflexivity.
  - intros Hnone. apply find_in_channels_None in Hnone. rewrite Hnone. reflexivity.
Qed.

End TargetChannel.

Lemma X11_find_target_channel_takes_first_match_witness :
  Client.target_channel
    (fst (Client.find_target_channel
            [Client.mk_guild "g1" 1 [Bot.mk_channel "general" 10];
             Client.mk_guild "g2" 2 [Bot.mk_channel Client.CHANNEL_NAME 20;
                                     Bot.mk_channel Client.CHANNEL_NAME 21]]
            Client.init))
  = Some (Bot.mk_channel Client.CHANNEL_NAME 20).
Proof.
  rewrite (proj1 (X11_find_target_channel_takes_first_match
                    [Client.mk_guild "g1" 1 [Bot.mk_channel "general" 10];
                     Client.mk_guild "g2" 2 [Bot.mk_channel Client.CHANNEL_NAME 20;
                                             Bot.mk_channel Client.CHANNEL_NAME 21]]
                    Client.init)
             [Bot.mk_channel "general" 10] (Bot.mk_channel Client.CHANNEL_NAME 20)
             [Bot.mk_channel Client.CHANNEL_NAME 21] eq_refl eq_refl).
  - reflexivity.
  - intros c' Hc'. apply list_elem_of_singleton in Hc'. subst c'.
    vm_compute. discriminate.
Defined.

(** ** The bot's event handlers *)

Section BotHandlers.

Import Client.

Variable clock : nat -> datetime.
Variable channel_send : nat -> Bot.channel -> payload -> result unit.
Variable super_close : nat -> result unit.
Variable isoformat : Z -> string.

(** What [find_target_channel] does, in terms of the search. *)
Lemma find_target_channel_eq guilds s :
  find_target_channel guilds s
  = (mk_state (spawn_scheduler s)
       (match find_in_guilds guilds with Some c => Some c | None => target_channel s end)
       (log s ++ match find_in_guilds guilds with
                 | Some _ => []
                 | None => [(WARNING, ChannelNotFound CHANNEL_NAME)]
                 end)
       (scheduler_log s) (sent s) (send_calls s) (close_calls s), Ok tt).
Proof.
  unfold find_target_channel, try_except.
  destruct (find_in_guilds guilds); cbn; [rewrite app_nil_r|]; reflexivity.
Qed.

(** X12: [on_ready] returns normally whatever error the startup send raises.
    It looks the target channel up first; with no target after that, nothing
    is sent and no send is attempted; with a target (the first channel named
    [CHANNEL_NAME], or the one set before when no channel matches), exactly
    one send of the startup embed to it is awaited, delivered if the send
    returns. The scheduler manager is not touched. *)
Theorem X12_on_ready_sends_startup_once user user_id guilds s :
  (forall c x, channel_send (send_calls s) c (Embed startup_embed) = Raise x ->
     isinstance x Exception = true) ->
  exists s',
    on_ready channel_send user user_id guilds s = (s', Ok tt)
    /\ spawn_scheduler s' = spawn_scheduler s
    /\ target_channel s'
       = match find_in_guilds guilds with Some c => Some c | None => target_channel s end
    /\ (target_channel s' = None -> sent s' = sent s /\ send_calls s' = send_calls s)
    /\ (forall c, target_channel s' = Some c ->
          send_calls s' = S (send_calls s)
          /\ (channel_send (send_calls s) c (Embed startup_embed) = Ok tt ->
              sent s' = (sent s ++ [(c, Embed startup_embed)])%list)
          /\ (forall x, channel_send (send_calls s) c (Embed startup_embed) = Raise x ->
              sent s' = sent s)).
Proof.
  intros Herr. unfold on_ready. unfold bind at 1. cbn [logger].
  unfold bind at 1. rewrite find_target_channel_eq. cbn.
  unfold bind at 1, get_target_channel. cbn.
  destruct (match find_in_guilds guilds with
            | Some c => Some c
            | None => target_channel s
            end) as [c|] eqn:Htc.
  - unfold bind at 1. cbn. unfold try_except, bind, await_send. cbn.
    destruct (channel_send (send_calls s) c (Embed startup_embed)) as [[]|x] eqn:Hsend; cbn.
    + eexists. split; [reflexivity|]. cbn.
      split; [reflexivity|]. split; [reflexivity|]. split; [discriminate|].
      intros c' Hc'. inversion Hc'; subst c'. rewrite Hsend.
      split; [reflexivity|]. split; [reflexivity | discriminate].
    + rewrite (Herr c x Hsend). cbn.
      eexists. split; [reflexivity|]. cbn.
      split; [reflexivity|]. split; [reflexivity|]. split; [discriminate|].
      intros c' Hc'. inversion Hc'; subst c'. rewrite Hsend.
      split; [reflexivity|]. split; [discriminate | reflexivity].
  - cbn. eexists. split; [reflexivity|]. cbn.
    split; [reflexivity|]. split; [reflexivity|]. split; [auto | discriminate].
Qed.

Lemma setup_schedules_frame configs ms ms' r :
  Manager.setup_schedules clock configs ms = (ms', r) ->
  Manager.is_running ms' = Manager.is_running ms
  /\ timing_loops (Manager.scheduler ms') = timing_loops (Manager.scheduler ms).
Proof.
  unfold Manager.setup_schedules, try_except. unfold bind at 1. cbn [Manager.logger].
  set (s0 := Manager.mk_state _ _ _ _ _).
  unfold bind at 1.
  destruct (for_each configs (Manager._add_spawn_schedule clock) s0) as [s1 [[]|e]] eqn:Hrun;
    pose proof (for_each_frame clock configs s0 s1 _ Hrun) as (Hr & Hl & _).
  - cbn. intros H; inversion H; subst. cbn. auto.
  - cbn [handle]. destruct (isinstance e Exception); cbn;
      intros H; inversion H; subst; cbn; auto.
Qed.

(** X14: [setup_hook] creates the manager, registers the schedules and
    starts the scheduler. When the registration raises, the error leaves
    [setup_hook] as it is, the scheduler is never started (the manager is
    kept, not running, with no timing loop) and the completion is not
    logged; when it returns, the manager ends up running with one timing
    loop and the jobs the registration stored. *)
Theorem X14_setup_hook_starts_only_after_registration configs s :
  (forall ms e,
     Manager.setup_schedules clock configs Manager.init = (ms, Raise e) ->
     setup_hook clock configs s
     = (mk_state (Some ms) (target_channel s) (log s ++ [(INFO, SettingUpBot)])
          (scheduler_log s) (sent s) (send_calls s) (close_calls s), Raise e)
     /\ Manager.is_running ms = false
     /\ timing_loops (Manager.scheduler ms) = 0%nat)
  /\ (forall ms,
        Manager.setup_schedules clock configs Manager.init = (ms, Ok tt) ->
        exists ms',
          setup_hook clock configs s
          = (mk_state (Some ms') (target_channel s)
               (log s ++ [(INFO, SettingUpBot); (INFO, BotSetupCompleted)])
               (scheduler_log s) (sent s) (send_calls s) (close_calls s), Ok tt)
          /\ Manager.is_running ms' = true
          /\ timing_loops (Manager.scheduler ms') = 1%nat
          /\ jobs (Manager.scheduler ms') = jobs (Manager.scheduler ms)).
Proof.
  split.
  - intros ms e Hsetup.
    destruct (setup_schedules_frame _ _ _ _ Hsetup) as [Hr Hl].
    split; [|split; [exact Hr | exact Hl]].
    unfold setup_hook. unfold bind at 1. cbn [logger].
    unfold bind at 1. cbn [assign_spawn_scheduler].
    unfold bind at 1, call_scheduler. rewrite Hsetup. cbn. reflexivity.
  - intros ms Hsetup.
    destruct (setup_schedules_frame _ _ _ _ Hsetup) as [Hr Hl]. cbn in Hr, Hl.
    destruct (start_not_running ms Hr) as [lg Hstart].
    exists (fst (Manager.start ms)). split.
    + unfold setup_hook. unfold bind at 1. cbn [logger].
      unfold bind at 1. cbn [assign_spawn_scheduler].
      unfold bind at 1, call_scheduler. rewrite Hsetup. cbn.
      unfold bind at 1. cbn. rewrite Hstart. unfold logger. cbn.
      rewrite <- app_assoc. reflexivity.
    + rewrite Hstart. cbn. rewrite Hl. auto.
Qed.

(** X15: [close] stops the scheduler manager when there is one, then awaits
    the close of the connection exactly once, whatever state the manager
    was in; it ends as that close ends, and logs the completion only when
    it returned. A manager that was running is left not running, with no
    timing loop. *)
Theorem X15_close_stops_scheduler_then_closes s :
  exists s',
    fst (close super_close s) = s'
    /\ snd (close super_close s) = super_close (close_calls s)
    /\ close_calls s' = S (close_calls s)
    /\ (spawn_scheduler s = None -> spawn_scheduler s' = None)
    /\ (forall ms, spawn_scheduler s = Some ms ->
          spawn_scheduler s' = Some (fst (Manager.stop ms))
          /\ Manager.is_running (fst (Manager.stop ms)) = false
          /\ (Manager.is_running ms = true ->
              timing_loops (Manager.scheduler (fst (Manager.stop ms))) = 0%nat))
    /\ log s'
       = (log s ++ (INFO, ShuttingDown)
            :: match super_close (close_calls s) with
               | Ok _ => [(INFO, ShutdownComplete)]
               | Raise _ => []
               end)%list.
Proof.
  eexists. split; [reflexivity|].
  unfold close. unfold bind at 1. cbn [logger].
  unfold bind at 1, get_spawn_scheduler. cbn.
  destruct (spawn_scheduler s) as [ms|] eqn:Hsch.
  - assert (Hstop : exists ms', Manager.stop ms = (ms', Ok tt)
                      /\ Manager.is_running ms' = false
                      /\ (Manager.is_running ms = true ->
                          timing_loops (Manager.scheduler ms') = 0%nat)).
    { destruct (Manager.is_running ms) eqn:Hr.
      - rewrite (stop_running ms Hr). eexists. split; [reflexivity|]. cbn. auto.
      - rewrite (stop_not_running ms Hr). eexists. split; [reflexivity|].
        split; [exact Hr | discriminate]. }
    destruct Hstop as (ms' & Hstop & Hr' & Hl').
    unfold bind, call_scheduler. rewrite Hstop. cbn.
    unfold await_super_close. cbn.
    destruct (super_close (close_calls s)) as [[]|e]; cbn;
      (split; [reflexivity|]; split; [reflexivity|]; split; [discriminate|];
       split; [|rewrite <- ?app_assoc; reflexivity];
       intros ms0 Hms0; inversion Hms0; subst ms0; rewrite Hstop; cbn; auto).
  - unfold bind. cbn. unfold await_super_close. cbn.
    destruct (super_close (close_calls s)) as [[]|e]; cbn;
      (split; [reflexivity|]; split; [reflexivity|]; split; [auto|];
       split; [discriminate | rewrite <- ?app_assoc; reflexivity]).
Qed.

End BotHandlers.

Lemma X12_on_ready_sends_startup_once_witness :
  exists s',
    Client.on_ready accepting_send "bot" 7
      [Client.mk_guild "g" 1 [Bot.mk_channel Client.CHANNEL_NAME 20]] Client.init
    = (s', Ok tt)
    /\ Client.sent s' = [(Bot.mk_channel Client.CHANNEL_NAME 20,
                          Client.Embed Client.startup_embed)].
Proof.
  destruct (X12_on_ready_sends_startup_once accepting_send "bot" 7
              [Client.mk_guild "g" 1 [Bot.mk_channel Client.CHANNEL_NAME 20]] Client.init)
    as (s' & Hrun & _ & Htc & _ & Hsend).
  - intros c x Hx. discriminate Hx.
  - exists s'. split; [exact Hrun|].
    destruct (Hsend (Bot.mk_channel Client.CHANNEL_NAME 20)) as (_ & Hok & _).
    + rewrite Htc. vm_compute. reflexivity.
    + apply Hok. reflexivity.
Defined.

Lemma X14_setup_hook_starts_only_after_registration_witness :
  exists ms',
    Client.spawn_scheduler (fst (Client.setup_hook morning_clock SPAWN_CONFIGS Client.init))
    = Some ms'
    /\ Manager.is_running ms' = true
    /\ timing_loops (Manager.scheduler ms') = 1%nat.
Proof.
  destruct (proj2 (X14_setup_hook_starts_only_after_registration morning_clock
                     SPAWN_CONFIGS Client.init)
              (fst (Manager.setup_schedules morning_clock SPAWN_CONFIGS Manager.init)))
    as (ms' & Hrun & Hr & Hl & _).
  - vm_compute. reflexivity.
  - exists ms'. rewrite Hrun. cbn. auto.
Defined.

Lemma X15_close_stops_scheduler_then_closes_witness :
  exists ms',
    Client.spawn_scheduler
      (fst (Client.close closing
              (fst (Client.setup_hook morning_clock SPAWN_CONFIGS Client.init))))
    = Some ms'
    /\ Manager.is_running ms' = false
    /\ timing_loops (Manager.scheduler ms') = 0%nat
    /\ snd (Client.close closing
              (fst (Client.setup_hook morning_clock SPAWN_CONFIGS Client.init)))
       = Ok tt.
Proof.
  destruct (X15_close_stops_scheduler_then_closes closing
              (fst (Client.setup_hook morning_clock SPAWN_CONFIGS Client.init)))
    as (s' & Hfst & Hsnd & _ & _ & Hsome & _).
  destruct (Hsome (fst (Manager.start
                          (fst (Manager.setup_schedules morning_clock SPAWN_CONFIGS
                                  Manager.init)))))
    as (Hsch & Hr & Hl).
  - vm_compute. reflexivity.
  - eexists. rewrite Hfst, Hsnd. split; [exact Hsch|]. split; [exact Hr|].
    split; [apply Hl; vm_compute; reflexivity | reflexivity].
Defined.

(** ** Invariants of the bot object *)

Section BotInvariants.

Import Client.

Variable clock : nat -> datetime.
Variable channel_send : nat -> Bot.channel -> payload -> result unit.
Variable super_close : nat -> result unit.
Variable isoformat : Z -> string.
Variable getattr_next_run_time : Scheduler -> Job -> result (option Z).

Local Open Scope py_scope.

Lemma keeps_ret {A} (a : A) (Q : A -> Prop) : Q a -> keeps_inv (ret a) Q.
Proof. intros Ha s Hs. split; [exact Hs|]. cbn. intros a' H; inversion H; subst; exact Ha. Qed.

Lemma keeps_bind {A B} (m : M state A) (k : A -> M state B) Q R :
  keeps_inv m Q -> (forall a, Q a -> keeps_inv (k a) R) -> keeps_inv (bind m k) R.
Proof.
  intros Hm Hk s Hs. unfold bind. destruct (Hm s Hs) as [Hs' HQ].
  destruct (m s) as [s' [a|e]]; cbn in *.
  - exact (Hk a (HQ a eq_refl) s' Hs').
  - split; [exact Hs' | discriminate].
Qed.

Lemma keeps_weaken {A} (m : M state A) (Q R : A -> Prop) :
  keeps_inv m Q -> (forall a, Q a -> R a) -> keeps_inv m R.
Proof. intros Hm HQR s Hs. destruct (Hm s Hs) as [Hs' HQ]. split; auto. Qed.

Lemma keeps_handle {A} (clauses : list (exn_class * (exn -> M state A))) Q e :
  Forall (fun ch => forall x, keeps_inv (snd ch x) Q) clauses ->
  keeps_inv (handle clauses e) Q.
Proof.
  induction 1 as [|[c h] rest Hh _ IH]; cbn.
  - intros s Hs. split; [exact Hs | discriminate].
  - destruct (isinstance e c); [apply Hh | exact IH].
Qed.

Lemma keeps_try_except {A} (body : M state A) clauses Q :
  keeps_inv body Q ->
  Forall (fun ch => forall x, keeps_inv (snd ch x) Q) clauses ->
  keeps_inv (try_except body clauses) Q.
Proof.
  intros Hb Hc s Hs. unfold try_except. destruct (Hb s Hs) as [Hs' HQ].
  destruct (body s) as [s' [a|e]]; cbn in *.
  - split; [exact Hs' | exact HQ].
  - exact (keeps_handle clauses Q e Hc s' Hs').
Qed.

Lemma keeps_logger l m : keeps_inv (logger l m) (fun _ => True).
Proof. intros s Hs. split; [exact Hs | auto]. Qed.

Lemma keeps_get_target_channel : keeps_inv get_target_channel (fun _ => True).
Proof. intros s Hs. split; [exact Hs | auto]. Qed.

Lemma keeps_get_spawn_scheduler :
  keeps_inv get_spawn_scheduler (fun o => forall ms, o = Some ms -> sched_ok ms).
Proof.
  intros s Hs. split; [exact Hs|]. cbn. intros o H; inversion H; subst.
  destruct Hs as (_ & Hsch & _). exact Hsch.
Qed.

Lemma find_in_guilds_named guilds c :
  find_in_guilds guilds = Some c -> Bot.channel_name c = CHANNEL_NAME.
Proof.
  rewrite find_in_guilds_flat. intros H. apply find_in_channels_Some in H as [_ H]. exact H.
Qed.

Lemma keeps_find_target_channel guilds :
  keeps_inv (find_target_channel guilds) (fun _ => True).
Proof.
  intros s (Ht & Hs & Hn). rewrite find_target_channel_eq. cbn.
  split; [|auto]. split; [|split; assumption].
  intros c. destruct (find_in_guilds guilds) as [c0|] eqn:Hf; [|apply Ht].
  intros H; inversion H; subst. exact (find_in_guilds_named _ _ Hf).
Qed.

Lemma keeps_await_send c p : keeps_inv (await_send channel_send c p) (fun _ => True).
Proof.
  intros s (Ht & Hs & Hn). split; [|auto]. unfold await_send.
  destruct (channel_send _ _ _); cbn; (split; [exact Ht|]; split; [exact Hs|]);
    cbn; rewrite ?length_app; cbn; lia.
Qed.

Lemma keeps_await_super_close : keeps_inv (await_super_close super_close) (fun _ => True).
Proof. intros s Hs. split; [exact Hs | auto]. Qed.

Lemma keeps_assign_spawn_scheduler ms :
  sched_ok ms -> keeps_inv (assign_spawn_scheduler ms) (fun _ => True).
Proof.
  intros Hms s (Ht & Hs & Hn). split; [|auto]. cbn.
  split; [exact Ht|]. split; [|exact Hn]. intros ms0 H; inversion H; subst. exact Hms.
Qed.

(** A call on the manager keeps the invariant when the method leaves the
    manager's scheduler consistent with its running flag. *)
Lemma keeps_call_scheduler {A} ms (m : M Manager.state A) :
  sched_ok (fst (m ms)) ->
  keeps_inv (call_scheduler ms m) (fun r => sched_ok (fst r)).
Proof.
  intros Hms s (Ht & Hs & Hn). unfold call_scheduler.
  destruct (m ms) as [ms' [a|e]]; cbn in *.
  - split; [|intros r H; inversion H; subst; exact Hms].
    split; [exact Ht|]. split; [|exact Hn]. intros ms0 H; inversion H; subst. exact Hms.
  - split; [|discriminate].
    split; [exact Ht|]. split; [|exact Hn]. intros ms0 H; inversion H; subst. exact Hms.
Qed.

Lemma sched_ok_init : sched_ok Manager.init.
Proof. reflexivity. Qed.

Lemma sched_ok_setup_schedules configs ms :
  sched_ok ms -> sched_ok (fst (Manager.setup_schedules clock configs ms)).
Proof.
  unfold sched_ok. intros Hms.
  destruct (Manager.setup_schedules clock configs ms) as [ms' r] eqn:Hrun.
  cbn [fst]. destruct (setup_schedules_frame clock _ _ _ _ Hrun) as [-> ->]. exact Hms.
Qed.

Lemma sched_ok_start ms : sched_ok ms -> sched_ok (fst (Manager.start ms)).
Proof.
  unfold sched_ok. intros Hms. destruct (Manager.is_running ms) eqn:Hr.
  - rewrite (start_running ms Hr). cbn. rewrite Hr. exact Hms.
  - destruct (start_not_running ms Hr) as [lg ->]. cbn. rewrite Hms. reflexivity.
Qed.

Lemma sched_ok_stop ms : sched_ok ms -> sched_ok (fst (Manager.stop ms)).
Proof.
  unfold sched_ok. intros Hms. destruct (Manager.is_running ms) eqn:Hr.
  - rewrite (stop_running ms Hr). reflexivity.
  - rewrite (stop_not_running ms Hr). cbn. rewrite Hr. exact Hms.
Qed.

Lemma keeps_on_ready user user_id guilds :
  keeps_inv (on_ready channel_send user user_id guilds) (fun _ => True).
Proof.
  unfold on_ready.
  eapply keeps_bind; [apply keeps_logger|]. intros _ _.
  eapply keeps_bind; [apply keeps_find_target_channel|]. intros _ _.
  eapply keeps_bind; [apply keeps_get_target_channel|]. intros [c|] _.
  - eapply keeps_bind; [apply keeps_logger|]. intros _ _.
    apply keeps_try_except.
    + eapply keeps_bind; [apply keeps_await_send|]. intros _ _. apply keeps_logger.
    + constructor; [|constructor]. intros x. apply keeps_logger.
  - apply keeps_logger.
Qed.

Lemma keeps_on_guild_join g guilds :
  keeps_inv (on_guild_join g guilds) (fun _ => True).
Proof.
  unfold on_guild_join.
  eapply keeps_bind; [apply keeps_logger|]. intros _ _.
  eapply keeps_bind; [apply keeps_get_target_channel|]. intros [c|] _.
  - apply keeps_ret. exact I.
  - apply keeps_find_target_channel.
Qed.

Lemma keeps_setup_hook configs :
  keeps_inv (setup_hook clock configs) (fun _ => True).
Proof.
  unfold setup_hook.
  eapply keeps_bind; [apply keeps_logger|]. intros _ _.
  eapply keeps_bind; [apply keeps_assign_spawn_scheduler, sched_ok_init|]. intros _ _.
  eapply keeps_bind;
    [apply keeps_call_scheduler, sched_ok_setup_schedules, sched_ok_init|].
  intros r Hr.
  eapply keeps_bind; [apply keeps_call_scheduler, sched_ok_start, Hr|]. intros _ _.
  apply keeps_logger.
Qed.

Lemma keeps_close : keeps_inv (close super_close) (fun _ => True).
Proof.
  unfold close.
  eapply keeps_bind; [apply keeps_logger|]. intros _ _.
  eapply keeps_bind; [apply keeps_get_spawn_scheduler|]. intros [ms|] Hms.
  - eapply keeps_bind.
    + eapply keeps_bind; [apply keeps_call_scheduler, sched_ok_stop, Hms; reflexivity|].
      intros _ _. apply (keeps_ret tt (fun _ => True)). exact I.
    + intros _ _. eapply keeps_bind; [apply keeps_await_super_close|]. intros _ _.
      apply keeps_logger.
  - eapply keeps_bind; [apply (keeps_ret tt (fun _ => True)); exact I|].
    intros _ _. eapply keeps_bind; [apply keeps_await_super_close|]. intros _ _.
    apply keeps_logger.
Qed.

Lemma keeps_call_get_status ms :
  keeps_inv (call_get_status isoformat getattr_next_run_time ms) (fun _ => True).
Proof.
  intros s Hs. split; [|auto]. unfold call_get_status.
  destruct (Status.get_status isoformat getattr_next_run_time ms (scheduler_log s))
    as [lg r].
  exact Hs.
Qed.

Lemma keeps_status_command ctx :
  keeps_inv (status_command channel_send isoformat getattr_next_run_time ctx)
    (fun _ => True).
Proof.
  unfold status_command. apply keeps_try_except.
  - eapply keeps_bind; [apply keeps_get_spawn_scheduler|]. intros [ms|] _.
    + eapply keeps_bind; [apply keeps_call_get_status|]. intros st _.
      apply keeps_await_send.
    + apply keeps_await_send.
  - constructor; [|constructor]. intros x.
    eapply keeps_bind; [apply keeps_logger|]. intros _ _. apply keeps_await_send.
Qed.

Lemma keeps_run_event ev :
  keeps_inv (run_event clock channel_send super_close isoformat getattr_next_run_time ev)
    (fun _ => True).
Proof.
  destruct ev; cbn.
  - apply keeps_setup_hook.
  - apply keeps_on_ready.
  - apply keeps_on_guild_join.
  - apply keeps_find_target_channel.
  - apply keeps_status_command.
  - apply keeps_close.
Qed.

(** X13: after any sequence of [setup_hook], [on_ready], [on_guild_join],
    [find_target_channel], [status_command] and [close], in any order and
    whatever the sends and the clock do, a target channel of the bot is
    named [CHANNEL_NAME], the manager's scheduler has exactly one timing loop
    when the manager is running and none when it is not, and no more
    payloads were delivered than sends awaited. *)
Theorem X13_bot_invariants evs :
  bot_inv (run_events clock channel_send super_close isoformat getattr_next_run_time
             evs init).
Proof.
  assert (Hgen : forall s, bot_inv s ->
            bot_inv (run_events clock channel_send super_close isoformat
                       getattr_next_run_time evs s)).
  { induction evs as [|ev rest IH]; intros s Hs; cbn; [exact Hs|].
    apply IH. exact (proj1 (keeps_run_event ev s Hs)). }
  apply Hgen. split; [discriminate|]. split; [discriminate|]. cbn. lia.
Qed.

End BotInvariants.

Lemma X13_bot_invariants_witness :
  (length (Client.sent
     (run_events morning_clock accepting_send closing (fun _ => "")
        stored_next_run_time
        [EvSetupHook SPAWN_CONFIGS;
         EvReady "bot" 7 [Client.mk_guild "g" 1 [Bot.mk_channel Client.CHANNEL_NAME 20]];
         EvSetupHook SPAWN_CONFIGS; EvClose]
        Client.init))
   <= Client.send_calls
        (run_events morning_clock accepting_send closing (fun _ => "")
        stored_next_run_time
           [EvSetupHook SPAWN_CONFIGS;
            EvReady "bot" 7 [Client.mk_guild "g" 1 [Bot.mk_channel Client.CHANNEL_NAME 20]];
            EvSetupHook SPAWN_CONFIGS; EvClose]
           Client.init))%nat.
Proof.
  exact (proj2 (proj2 (X13_bot_invariants morning_clock accepting_send closing (fun _ => "")
        stored_next_run_time
                         [EvSetupHook SPAWN_CONFIGS;
                          EvReady "bot" 7
                            [Client.mk_guild "g" 1 [Bot.mk_channel Client.CHANNEL_NAME 20]];
                          EvSetupHook SPAWN_CONFIGS; EvClose]))).
Defined.

(** ** The status command *)

Section StatusCommand.

Import Client.

Variable channel_send : nat -> Bot.channel -> payload -> result unit.
Variable isoformat : Z -> string.
Variable getattr_next_run_time : Scheduler -> Job -> result (option Z).

Lemma status_embed_fields r n js :
  e_fields (status_embed (Status.StatusDict r n js))
  = ([mk_field "Status" (if r then "🟢 Running" else "🔴 Stopped") true;
      mk_field "Active Jobs" (pretty n) true]
     ++ match js with
        | [] => []
        | _ :: _ =>
            [mk_field "Scheduled Jobs"
               (String.concat nl (map (fun job => "• " +:+ Status.info_name job) js)) false]
        end)%list.
Proof. destruct js; reflexivity. Qed.

(** X16: when the send to the context returns, [status_command] delivers
    exactly one payload to it and returns normally, leaving the manager as
    it is. Without a manager the payload is the text "Scheduler not
    initialized.". With a manager whose jobs' next run times can all be
    read, it is an embed whose first field says Running exactly when the
    manager's flag is set, whose second field is the number of registered
    jobs in decimal, and which has a third field, the jobs list, exactly
    when there is a job. With a manager for which such a read fails with an
    [Exception], the embed says Stopped and 0 jobs whatever the manager's
    flag and jobs are, and the failure is logged by the manager, not by the
    bot. *)
Theorem X16_status_command_reports_manager ctx s :
  (forall p, channel_send (send_calls s) ctx p = Ok tt) ->
  (spawn_scheduler s = None ->
   status_command channel_send isoformat getattr_next_run_time ctx s
   = (mk_state None (target_channel s) (log s) (scheduler_log s)
        (sent s ++ [(ctx, Text "Scheduler not initialized.")])
        (S (send_calls s)) (close_calls s), Ok tt))
  /\ (forall ms, spawn_scheduler s = Some ms ->
        (forall k j, jobs (Manager.scheduler ms) !! k = Some j ->
           exists v, getattr_next_run_time (Manager.scheduler ms) j = Ok v) ->
        exists e,
          status_command channel_send isoformat getattr_next_run_time ctx s
          = (mk_state (Some ms) (target_channel s) (log s) (scheduler_log s)
               (sent s ++ [(ctx, Embed e)]) (S (send_calls s)) (close_calls s), Ok tt)
          /\ e_fields e !! 0%nat
             = Some (mk_field "Status"
                       (if Manager.is_running ms then "🟢 Running" else "🔴 Stopped") true)
          /\ e_fields e !! 1%nat
             = Some (mk_field "Active Jobs"
                       (pretty (size (jobs (Manager.scheduler ms)))) true)
          /\ length (e_fields e)
             = (if decide (size (jobs (Manager.scheduler ms)) = 0%nat) then 2 else 3)%nat)
  /\ (forall ms, spawn_scheduler s = Some ms ->
        (exists k j e, jobs (Manager.scheduler ms) !! k = Some j
                       /\ getattr_next_run_time (Manager.scheduler ms) j = Raise e) ->
        (forall j e, getattr_next_run_time (Manager.scheduler ms) j = Raise e ->
           isinstance e Exception = true) ->
        exists k j e,
          jobs (Manager.scheduler ms) !! k = Some j
          /\ getattr_next_run_time (Manager.scheduler ms) j = Raise e
          /\ status_command channel_send isoformat getattr_next_run_time ctx s
             = (mk_state (Some ms) (target_channel s) (log s)
                  (scheduler_log s ++ [(ERROR, Status.ErrorGettingStatus e)])
                  (sent s ++ [(ctx, Embed failed_status_embed)])
                  (S (send_calls s)) (close_calls s), Ok tt)).
Proof.
  intros Hsend. split; [|split].
  - intros Hnone. unfold status_command, try_except, bind, get_spawn_scheduler.
    rewrite Hnone. unfold await_send. rewrite Hsend. cbn. rewrite Hnone. reflexivity.
  - intros ms Hms Hall.
    destruct (get_status_Ok isoformat getattr_next_run_time ms (scheduler_log s) Hall)
      as (js & Hget & Hlen & _).
    exists (status_embed (Status.StatusDict (Manager.is_running ms)
                            (size (jobs (Manager.scheduler ms))) js)).
    split.
    + unfold status_command, try_except, bind, get_spawn_scheduler.
      rewrite Hms. unfold call_get_status. rewrite Hget. cbn.
      unfold await_send. rewrite Hsend. cbn. rewrite Hms. reflexivity.
    + rewrite status_embed_fields. cbn. split; [reflexivity|]. split; [reflexivity|].
      destruct js; cbn in *; rewrite <- Hlen; reflexivity.
  - intros ms Hms Hsome Hexn.
    destruct (get_status_Raise isoformat getattr_next_run_time ms (scheduler_log s) Hsome)
      as (k & j & e & Hk & He & Hget).
    rewrite (Hexn j e He) in Hget.
    exists k, j, e. split; [exact Hk|]. split; [exact He|].
    unfold status_command, try_except, bind, get_spawn_scheduler.
    rewrite Hms. unfold call_get_status. rewrite Hget. cbn.
    unfold await_send. cbn. rewrite Hsend. cbn. rewrite Hms. reflexivity.
Qed.

End StatusCommand.

Lemma X16_status_command_reports_manager_witness :
  (exists s' e,
     Client.status_command accepting_send (fun _ => "") stored_next_run_time
       (Bot.mk_channel "ops" 5)
       (fst (Client.setup_hook morning_clock SPAWN_CONFIGS Client.init))
     = (s', Ok tt)
     /\ Client.sent s' = [(Bot.mk_channel "ops" 5, Client.Embed e)]
     /\ Client.e_fields e !! 0%nat = Some (Client.mk_field "Status" "🟢 Running" true)
     /\ Client.e_fields e !! 1%nat = Some (Client.mk_field "Active Jobs" "6" true))
  /\ (exists s',
        Client.status_command accepting_send (fun _ => "") unset_next_run_time
          (Bot.mk_channel "ops" 5)
          (fst (Client.setup_hook morning_clock SPAWN_CONFIGS Client.init))
        = (s', Ok tt)
        /\ Client.sent s' = [(Bot.mk_channel "ops" 5, Client.Embed failed_status_embed)]).
Proof.
  split.
  - destruct (proj1 (proj2 (X16_status_command_reports_manager accepting_send
                              (fun _ => "") stored_next_run_time (Bot.mk_channel "ops" 5)
                              (fst (Client.setup_hook morning_clock SPAWN_CONFIGS
                                      Client.init))
                              (fun _ => eq_refl)))
                (fst (Manager.start
                        (fst (Manager.setup_schedules morning_clock SPAWN_CONFIGS
                                Manager.init)))))
      as (e & Hrun & H0 & H1 & _).
    + vm_compute. reflexivity.
    + intros k j _. exists (next_run_time j). reflexivity.
    + eexists _, e. split; [exact Hrun|]. split; [reflexivity|].
      split; [exact H0|]. rewrite H1. vm_compute. reflexivity.
  - destruct (proj2 (proj2 (X16_status_command_reports_manager accepting_send
                              (fun _ => "") unset_next_run_time (Bot.mk_channel "ops" 5)
                              (fst (Client.setup_hook morning_clock SPAWN_CONFIGS
                                      Client.init))
                              (fun _ => eq_refl)))
                (fst (Manager.start
                        (fst (Manager.setup_schedules morning_clock SPAWN_CONFIGS
                                Manager.init)))))
      as (k & j & e & _ & _ & Hrun).
    + vm_compute. reflexivity.
    + exists "temintia_spawn",
        (main_job (mk_config "Temintia Misterioasa V5"
                     "Sefii din Temintia Misterioasa V5 apar in 5 min !!!"
                     "Sefii din Temnita Misterioasa V5 au aparut !!!"
                     2 "temintia_spawn" "temintia_followup")
           (mk_datetime 2025 6 15 12 10 0 0)),
        (mk_exn AttributeError "next_run_time").
      split; [vm_compute; reflexivity | reflexivity].
    + intros j e He. inversion He. reflexivity.
    + eexists. split; [exact Hrun | reflexivity].
Defined.

(** ** The entry point *)

Section EntryPoint.

Import Main.

Variable bot_start : string -> result unit.

(** X17: the coroutine [main] never ends with an [Exception]. Without a
    token, or with an empty one, it raises [SystemExit(1)] and the bot is
    never started. With a token the bot is started exactly once with it;
    [main] then returns when the bot returns or its await raises
    [KeyboardInterrupt], turns every [Exception] of the bot into
    [SystemExit(1)], and lets anything else (such as the cancellation of the
    task) through unchanged. *)
Theorem X17_main_exits token s :
  (token = None \/ token = Some "" ->
   main bot_start token s
   = (mk_state (log s ++ [(ERROR, TokenNotFound); (ERROR, PleaseSetToken)]) (started s),
      Raise (mk_exn SystemExit "1")))
  /\ (forall t, token = Some t -> t <> "" ->
        started (fst (main bot_start token s)) = (started s ++ [t])%list
        /\ snd (main bot_start token s)
           = match bot_start t with
             | Ok _ => Ok tt
             | Raise e =>
                 if isinstance e KeyboardInterrupt then Ok tt
                 else if isinstance e Exception then Raise (mk_exn SystemExit "1")
                 else Raise e
             end)
  /\ (forall e, snd (main bot_start token s) = Raise e -> isinstance e Exception = false).
Proof.
  assert (Hmissing : token = None \/ token = Some "" ->
            main bot_start token s
            = (mk_state (log s ++ [(ERROR, TokenNotFound); (ERROR, PleaseSetToken)])
                 (started s), Raise (mk_exn SystemExit "1"))).
  { intros [-> | ->]; unfold main, try_except, bind, logger, sys_exit, raise; cbn;
      rewrite <- app_assoc; reflexivity. }
  assert (Hgiven : forall t, token = Some t -> t <> "" ->
            started (fst (main bot_start token s)) = (started s ++ [t])%list
            /\ snd (main bot_start token s)
               = match bot_start t with
                 | Ok _ => Ok tt
                 | Raise e =>
                     if isinstance e KeyboardInterrupt then Ok tt
                     else if isinstance e Exception then Raise (mk_exn SystemExit "1")
                     else Raise e
                 end).
  { intros t -> Ht. destruct t as [|c t]; [contradiction|].
    unfold main, try_except, bind, logger, await_bot_start, sys_exit, raise. cbn.
    destruct (bot_start (String c t)) as [[]|e]; cbn; [auto|].
    destruct (isinstance e KeyboardInterrupt) eqn:Hk; cbn; [auto|].
    destruct (isinstance e Exception) eqn:He; cbn; auto. }
  split; [exact Hmissing|]. split; [exact Hgiven|].
  intros e He. destruct token as [[|c t]|].
  - rewrite (Hmissing (or_intror eq_refl)) in He. inversion He. reflexivity.
  - destruct (Hgiven (String c t) eq_refl ltac:(discriminate)) as [_ Hr].
    rewrite Hr in He. destruct (bot_start (String c t)) as [[]|e0]; [discriminate|].
    destruct (isinstance e0 KeyboardInterrupt); [discriminate|].
    destruct (isinstance e0 Exception) eqn:He0; inversion He; subst; auto.
  - rewrite (Hmissing (or_introl eq_refl)) in He. inversion He. reflexivity.
Qed.

End EntryPoint.

Lemma X17_main_exits_witness :
  snd (Main.main (fun _ => Raise (mk_exn RuntimeError "Improper token has been passed."))
         (Some "abc") (Main.mk_state [] []))
  = Raise (mk_exn SystemExit "1")
  /\ Main.main (fun _ => Ok tt) (Some "") (Main.mk_state [] [])
     = (Main.mk_state [(ERROR, Main.TokenNotFound); (ERROR, Main.PleaseSetToken)] [],
        Raise (mk_exn SystemExit "1")).
Proof.
  split.
  - exact (proj2 (proj1 (proj2 (X17_main_exits
                    (fun _ => Raise (mk_exn RuntimeError "Improper token has been passed."))
                    (Some "abc") (Main.mk_state [] []))) "abc" eq_refl ltac:(discriminate))).
  - exact (proj1 (X17_main_exits (fun _ => Ok tt) (Some "") (Main.mk_state [] []))
             (or_intror eq_refl)).
Defined.

(** ** Joining a guild *)

Section GuildJoin.

Import Client.

(** X8: [on_guild_join] never replaces a target channel that is set, also
    when the guilds hold another channel named [CHANNEL_NAME]: it only logs
    the join. Without a target it searches all guilds, as
    [find_target_channel] does, and takes the first channel of that name, or
    leaves the target unset and logs a warning when there is none. It
    returns normally in every case. *)
Theorem X8_on_guild_join_keeps_target g guilds s :
  (forall c, target_channel s = Some c ->
     on_guild_join g guilds s
     = (mk_state (spawn_scheduler s) (Some c)
          (log s ++ [(INFO, JoinedGuild (guild_name g) (guild_id g))])
          (scheduler_log s) (sent s) (send_calls s) (close_calls s), Ok tt))
  /\ (target_channel s = None ->
      on_guild_join g guilds s
      = (mk_state (spawn_scheduler s) (find_in_channels (flat_map text_channels guilds))
           (log s ++ (INFO, JoinedGuild (guild_name g) (guild_id g))
              :: match find_in_channels (flat_map text_channels guilds) with
                 | Some _ => []
                 | None => [(WARNING, ChannelNotFound CHANNEL_NAME)]
                 end)
           (scheduler_log s) (sent s) (send_calls s) (close_calls s), Ok tt)).
Proof.
  split.
  - intros c Hc. unfold on_guild_join, bind, get_target_channel. cbn. rewrite Hc. cbn.
    rewrite ?Hc. reflexivity.
  - intros Hnone. unfold on_guild_join, bind, get_target_channel. cbn. rewrite Hnone.
    rewrite find_target_channel_eq, find_in_guilds_flat. cbn. rewrite ?Hnone.
    destruct (find_in_channels _); cbn; rewrite <- ?app_assoc; reflexivity.
Qed.

End GuildJoin.

Lemma X8_on_guild_join_keeps_target_witness :
  Client.target_channel
    (fst (Client.on_guild_join
            (Client.mk_guild "g2" 2 [Bot.mk_channel Client.CHANNEL_NAME 21])
            [Client.mk_guild "g2" 2 [Bot.mk_channel Client.CHANNEL_NAME 21]]
            (Client.mk_state None (Some (Bot.mk_channel Client.CHANNEL_NAME 20))
               [] [] [] 0 0)))
  = Some (Bot.mk_channel Client.CHANNEL_NAME 20).
Proof.
  rewrite (proj1 (X8_on_guild_join_keeps_target
                    (Client.mk_guild "g2" 2 [Bot.mk_channel Client.CHANNEL_NAME 21])
                    [Client.mk_guild "g2" 2 [Bot.mk_channel Client.CHANNEL_NAME 21]]
                    (Client.mk_state None (Some (Bot.mk_channel Client.CHANNEL_NAME 20))
                       [] [] [] 0 0))
             (Bot.mk_channel Client.CHANNEL_NAME 20) eq_refl).
  reflexivity.
Defined.
